(** * Patch-evaluation runner: a shallow embedding of [src/runner/runner.py]

    The Python class [Runner] evaluates a patch against a program directory:
    it runs the test command in the original directory, copies the directory
    into a temporary workspace, applies the patch there with [git apply],
    runs the tests again and classifies the two outcomes.

    The embedding keeps the shape of the source.  Python [str] values are
    lists of code points, dictionaries with a fixed key set are records, the
    operating system is an explicit world (a file system and the log of the
    calls made) and every call that can raise lives in a small
    state-and-exception monad whose state survives a raise, as side effects
    do in Python. *)

From Stdlib Require Import ZArith NArith String Ascii List Bool Lia.
From Stdlib Require Import SpecFloat.
From stdpp Require Import base option list gmap.
Import ListNotations.

Local Open Scope Z_scope.

(** ** Python strings *)

Module PyStr.

(** A [str] is its sequence of Unicode code points. *)
Definition pystr : Type := list N.

(** A string literal of the source, read code point by code point. *)
Definition lit (s : string) : pystr :=
  List.map N_of_ascii (list_ascii_of_string s).
Arguments lit s%_string.

(** [str.isspace] for one character, as CPython's [_PyUnicode_IsWhitespace]:
    the code points of bidirectional type WS, B or S, or of category Zs. *)
Definition isspace (c : N) : bool :=
  ((9 <=? c) && (c <=? 13) || (28 <=? c) && (c <=? 32)
   || (c =? 133) || (c =? 160) || (c =? 5760)
   || (8192 <=? c) && (c <=? 8202)
   || (c =? 8232) || (c =? 8233) || (c =? 8239) || (c =? 8287)
   || (c =? 12288))%N.

Fixpoint lstrip (s : pystr) : pystr :=
  match s with
  | [] => []
  | c :: s' => if isspace c then lstrip s' else s
  end.

Definition rstrip (s : pystr) : pystr := rev (lstrip (rev s)).

(** [s.strip()] with no argument. *)
Definition strip (s : pystr) : pystr := rstrip (lstrip s).

(** Truthiness of a [str]: the empty string is falsy. *)
Definition truthy (s : pystr) : bool :=
  match s with [] => false | _ :: _ => true end.

(** [a or b] on strings: [a] when it is truthy, else [b]. *)
Definition por (a b : pystr) : pystr := if truthy a then a else b.

End PyStr.
Export PyStr.

Infix "||s" := por (at level 50, left associativity).

(** ** Data model *)

(** The dictionary built by [_run_tests], keys [passed], [returncode],
    [stdout] and [stderr]. *)
Record TestOutcome : Type := {
  passed : bool;
  returncode : Z;
  stdout : pystr;
  stderr : pystr
}.

(** The dictionary [report] built and returned by [run], with the keys of
    the source in the order of the source. *)
Record Report : Type := {
  name : pystr;
  program_dir : pystr;
  patched_dir : option pystr;
  before : TestOutcome;
  after : option TestOutcome;
  patch_applied : bool;
  patch_error : option pystr;
  status : pystr
}.

(** The four string constants that [_status] returns. *)
Definition PATCH_FAILED : pystr := lit "patch_failed".
Definition REPAIRED : pystr := lit "repaired".
Definition REGRESSED : pystr := lit "regressed".
Definition NOT_REPAIRED : pystr := lit "not_repaired".

(** ** The verdict

    [Runner._status], a static method without side effects.  The first test
    is [not patch_applied or after is None]; past it [after] is a
    dictionary. *)
Definition _status (before : TestOutcome) (after : option TestOutcome)
    (patch_applied : bool) : pystr :=
  match negb patch_applied, after with
  | true, _ => PATCH_FAILED
  | false, None => PATCH_FAILED
  | false, Some after =>
      if negb (passed before) && passed after then REPAIRED
      else if passed before && negb (passed after) then REGRESSED
      else NOT_REPAIRED
  end.

(** ** Exceptions *)

(** A raised exception, by its class name and by [str(exc)].  The calls
    modelled here raise [OSError] and its subclasses, [RuntimeError] and the
    like, all of them subclasses of [Exception]: the handler
    [except Exception] of [run] catches every value of this type. *)
Record exn : Type := {
  exn_class : pystr;
  exn_str : pystr
}.

Definition RuntimeError (msg : pystr) : exn :=
  {| exn_class := lit "RuntimeError"; exn_str := msg |}.

Definition FileNotFoundError (msg : pystr) : exn :=
  {| exn_class := lit "FileNotFoundError"; exn_str := msg |}.

Inductive result (A : Type) : Type :=
| Ok (a : A)
| Raise (e : exn).
Arguments Ok {A} a.
Arguments Raise {A} e.

(** ** The world: a file system and the log of the calls made *)

(** A [pathlib.Path], by its string form ([str(p)] is the identity). *)
Abbreviation path := pystr (only parsing).

(** Files and directories are known by name.  A directory stands for its
    whole tree; a regular file carries its text. *)
Record filesystem : Type := {
  dirs : gset (list N);
  files : gmap (list N) pystr
}.

(** The library calls of [runner.py] that touch the outside world. *)
Inductive event : Type :=
| EvSpawn (args : list pystr) (cwd : path)   (* subprocess.run(args, cwd=cwd) *)
| EvMkdtemp (prefix : pystr)                 (* tempfile.mkdtemp(prefix=prefix) *)
| EvRmtree (p : path)                        (* shutil.rmtree(p, ignore_errors=True) *)
| EvCopytree (src dst : path)                (* shutil.copytree(src, dst) *)
| EvTempfile                                 (* tempfile.NamedTemporaryFile(...) *)
| EvWrite (p : path) (text : pystr)          (* f.write(text), p.write_text(text) *)
| EvClose (p : path)                         (* f.close() *)
| EvUnlink (p : path)                        (* p.unlink(missing_ok=True) *)
| EvMkdir (p : path).                        (* p.mkdir(parents=True, exist_ok=True) *)

Record world : Type := {
  fs : filesystem;
  log : list event
}.

(** What [subprocess.run(..., capture_output=True, text=True, check=False)]
    returns once the child has terminated. *)
Record CompletedProcess : Type := {
  cp_returncode : Z;
  cp_stdout : pystr;
  cp_stderr : pystr
}.

(** How a [shutil.copytree] that raises leaves the destination: it raises
    before [os.makedirs(dst)] or after it. *)
Inductive copy_outcome : Type :=
| Copied
| CopyFailed (dst_created : bool) (e : exn).

(** The environment of one evaluation: the pure path operations of
    [pathlib], and for every call that leaves the process what the operating
    system answers in a given file system.  Everything below is stated for an
    arbitrary environment. *)
Record Env : Type := {
  Path : pystr -> path;                      (* Path(s) *)
  resolve : path -> path;                    (* p.resolve() *)
  path_name : path -> pystr;                 (* p.name *)
  parent : path -> path;                     (* p.parent *)
  json_dumps : Report -> pystr;              (* json.dumps(report, indent=2) *)
  os_spawn : list pystr -> path -> filesystem
             -> result CompletedProcess * filesystem;
  os_mkdtemp : pystr -> filesystem -> result path;
  os_copytree : path -> path -> filesystem -> copy_outcome;
  os_tempfile : filesystem -> result path;
  os_write : path -> pystr -> filesystem -> option exn;
  os_close : path -> filesystem -> option exn;
  os_mkdir : path -> filesystem -> option exn
}.

(** ** The monad of effectful code

    A computation takes the world and returns a value or a raised exception,
    together with the world it leaves: what was done before a raise stays
    done. *)
Definition M (A : Type) : Type := world -> result A * world.

Definition ret {A} (a : A) : M A := fun w => (Ok a, w).

Definition raise {A} (e : exn) : M A := fun w => (Raise e, w).

Definition bind {A B} (m : M A) (k : A -> M B) : M B :=
  fun w =>
    match m w with
    | (Ok a, w') => k a w'
    | (Raise e, w') => (Raise e, w')
    end.

Notation "x <- m ;; k" := (bind m (fun x => k))
  (at level 100, m at next level, right associativity).
Notation "m ;; k" := (bind m (fun _ => k))
  (at level 100, right associativity).

(** [try: body finally: fin]: [fin] runs on both exits of [body]; the result
    of [body], value or exception, is the result of the statement unless
    [fin] itself raises. *)
Definition try_finally {A} (body : M A) (fin : M unit) : M A :=
  fun w =>
    let '(r, w') := body w in
    match fin w' with
    | (Ok _, w'') => (r, w'')
    | (Raise e, w'') => (Raise e, w'')
    end.

Definition emit (e : event) (w : world) : world :=
  {| fs := fs w; log := log w ++ [e] |}.

Definition set_fs (f : filesystem) (w : world) : world :=
  {| fs := f; log := log w |}.

(** ** The runner *)

Section Runner.

Variable env : Env.

(** *** Library calls *)

(** [p.is_dir()] and [p.is_file()]: whether the name is that of a directory,
    of a regular file. *)
Definition is_dir (p : path) : M bool :=
  fun w => (Ok (bool_decide (p ∈ dirs (fs w))), w).

Definition is_file (p : path) : M bool :=
  fun w => (Ok (bool_decide (is_Some (files (fs w) !! p))), w).

(** [subprocess.run(args, cwd=cwd, capture_output=True, text=True,
    check=False)].  The call raises when the program cannot be started; a
    child that ran may have changed any file. *)
Definition subprocess_run (args : list pystr) (cwd : path)
    : M CompletedProcess :=
  fun w =>
    let '(r, f) := os_spawn env args cwd (fs w) in
    (r, set_fs f (emit (EvSpawn args cwd) w)).

(** [Path(tempfile.mkdtemp(prefix=prefix))]: a new directory. *)
Definition mkdtemp (prefix : pystr) : M path :=
  fun w =>
    let w := emit (EvMkdtemp prefix) w in
    match os_mkdtemp env prefix (fs w) with
    | Ok d => (Ok d, set_fs {| dirs := {[d]} ∪ dirs (fs w);
                               files := files (fs w) |} w)
    | Raise e => (Raise e, w)
    end.

(** [shutil.rmtree(p, ignore_errors=True)]: never raises; the tree is taken
    to be removed. *)
Definition rmtree (p : path) : M unit :=
  fun w =>
    let w := emit (EvRmtree p) w in
    (Ok tt, set_fs {| dirs := dirs (fs w) ∖ {[p]}; files := files (fs w) |} w).

(** [shutil.copytree(src, dst)]: [dst] must not exist
    ([dirs_exist_ok=False]); the copy may fail before or after [dst] has
    been created. *)
Definition copytree (src dst : path) : M unit :=
  fun w =>
    let w := emit (EvCopytree src dst) w in
    let created := set_fs {| dirs := {[dst]} ∪ dirs (fs w);
                             files := files (fs w) |} w in
    if bool_decide (dst ∈ dirs (fs w)) then
      (Raise {| exn_class := lit "FileExistsError";
                exn_str := lit "[Errno 17] File exists: '" ++ dst ++ lit "'" |},
       w)
    else
      match os_copytree env src dst (fs w) with
      | Copied => (Ok tt, created)
      | CopyFailed true e => (Raise e, created)
      | CopyFailed false e => (Raise e, w)
      end.

(** [tempfile.NamedTemporaryFile(mode="w", suffix=".diff", delete=False,
    encoding="utf-8")]: a new, empty file that outlives its handle; the
    handle is known by the file's name, [temp.name]. *)
Definition NamedTemporaryFile : M path :=
  fun w =>
    let w := emit EvTempfile w in
    match os_tempfile env (fs w) with
    | Ok t => (Ok t, set_fs {| dirs := dirs (fs w);
                               files := <[t := []]> (files (fs w)) |} w)
    | Raise e => (Raise e, w)
    end.

(** Writing [text] to the file named [p]: [temp.write(text)] on a new
    file, [p.write_text(text, encoding="utf-8")]. *)
Definition write_text (p : path) (text : pystr) : M unit :=
  fun w =>
    let w := emit (EvWrite p text) w in
    match os_write env p text (fs w) with
    | None => (Ok tt, set_fs {| dirs := dirs (fs w);
                                files := <[p := text]> (files (fs w)) |} w)
    | Some e => (Raise e, w)
    end.

(** [temp.close()]. *)
Definition close (p : path) : M unit :=
  fun w =>
    let w := emit (EvClose p) w in
    match os_close env p (fs w) with
    | None => (Ok tt, w)
    | Some e => (Raise e, w)
    end.

(** [p.unlink(missing_ok=True)]: the file is gone afterwards, whether or
    not it was there. *)
Definition unlink (p : path) : M unit :=
  fun w =>
    let w := emit (EvUnlink p) w in
    (Ok tt, set_fs {| dirs := dirs (fs w); files := delete p (files (fs w)) |} w).

(** [p.mkdir(parents=True, exist_ok=True)]. *)
Definition mkdir (p : path) : M unit :=
  fun w =>
    let w := emit (EvMkdir p) w in
    match os_mkdir env p (fs w) with
    | None => (Ok tt, set_fs {| dirs := {[p]} ∪ dirs (fs w);
                                files := files (fs w) |} w)
    | Some e => (Raise e, w)
    end.

(** *** class Runner *)

Record Runner : Type := {
  test_command : list pystr
}.

(** [__init__]: [list(test_command or ["python", "-m", "pytest", "-q"])];
    [None] and the empty sequence are falsy. *)
Definition __init__ (test_command : option (list pystr)) : Runner :=
  {| test_command :=
       match test_command with
       | Some (a :: l) => a :: l
       | Some [] | None => [lit "python"; lit "-m"; lit "pytest"; lit "-q"]
       end |}.

(** [Runner._run_tests]. *)
Definition _run_tests (self : Runner) (project_dir : path) : M TestOutcome :=
  result <- subprocess_run (test_command self) project_dir ;;
  ret {| passed := cp_returncode result =? 0;
         returncode := cp_returncode result;
         stdout := cp_stdout result;
         stderr := cp_stderr result |}.

(** The command line of the apply step. *)
Definition git_apply (diff_file : path) : list pystr :=
  [lit "git"; lit "apply"; lit "--whitespace=nowarn"; diff_file].

(** Lines 85 to 96 of [_apply_patch]: the choice of [diff_file] and
    [temp_path].  A patch that names an existing file is used in place;
    any other patch is text, written to a new temporary file. *)
Definition stage_diff (patch : pystr) : M (path * option path) :=
  let patch_path := Path env patch in
  let temp_path := None in
  isf <- is_file patch_path ;;
  if isf : bool then
    let diff_file := resolve env patch_path in
    ret (diff_file, temp_path)
  else
    temp <- NamedTemporaryFile ;;
    write_text temp patch ;;
    close temp ;;
    let temp_path := Some temp in
    let diff_file := temp in
    ret (diff_file, temp_path).

(** [Runner._apply_patch], a static method.  It returns [None] when the
    patch applied and raises otherwise. *)
Definition _apply_patch (project_dir : path) (patch : pystr) : M unit :=
  staged <- stage_diff patch ;;
  let '(diff_file, temp_path) := staged in
  try_finally
    (result <- subprocess_run (git_apply diff_file) project_dir ;;
     if negb (cp_returncode result =? 0) then
       let error_text :=
         strip (cp_stderr result) ||s strip (cp_stdout result)
           ||s lit "patch apply failed" in
       raise (RuntimeError error_text)
     else ret tt)
    (match temp_path with
     | Some temp_path => unlink temp_path
     | None => ret tt
     end).

(** Lines 34 to 43 of [run]: the locals [patch_applied], [patch_error] and
    [after], and the [try] block that assigns them.  When the handler runs,
    each local has the value it had reached at the raise. *)
Definition patch_window (self : Runner) (patched_dir : path) (patch : pystr)
    : M (bool * option pystr * option TestOutcome) :=
  fun w =>
    let patch_applied := false in
    let patch_error := None in
    let after := None in
    match _apply_patch patched_dir patch w with
    | (Raise exc, w) => (Ok (patch_applied, Some (exn_str exc), after), w)
    | (Ok _, w) =>
        let patch_applied := true in
        match _run_tests self patched_dir w with
        | (Raise exc, w) => (Ok (patch_applied, Some (exn_str exc), after), w)
        | (Ok out, w) => (Ok (patch_applied, patch_error, Some out), w)
        end
    end.

(** [Runner.run]. *)
Definition run (self : Runner) (program_dir : pystr) (patch : pystr)
    (report_path : option pystr) (keep_patched_dir : bool) : M Report :=
  let source_dir := resolve env (Path env program_dir) in
  found <- is_dir source_dir ;;
  if negb found then
    raise (FileNotFoundError
             (lit "Program directory not found: " ++ source_dir))
  else
  before <- _run_tests self source_dir ;;
  patched_dir <- mkdtemp (path_name env source_dir ++ lit "_patched_") ;;
  rmtree patched_dir ;;
  copytree source_dir patched_dir ;;
  locals <- patch_window self patched_dir patch ;;
  let '(patch_applied, patch_error, after) := locals in
  let status := _status before after patch_applied in
  let report :=
    {| name := path_name env source_dir;
       program_dir := source_dir;
       patched_dir := if keep_patched_dir then Some patched_dir else None;
       before := before;
       after := after;
       patch_applied := patch_applied;
       patch_error := patch_error;
       status := status |} in
  match report_path with
  | Some report_path =>
      let output_path := Path env report_path in
      mkdir (parent env output_path) ;;
      write_text output_path (json_dumps env report)
  | None => ret tt
  end ;;
  (if negb keep_patched_dir then rmtree patched_dir else ret tt) ;;
  ret report.

(** *** The blocks of [run]

    [run] is the sequence of three blocks: lines 24 to 32 prepare the
    workspace, lines 34 to 43 are [patch_window], lines 45 to 66 build the
    report, write it and clean up. *)

(** Lines 24 to 32: the source directory, the baseline run and the
    workspace.  Returns [source_dir], [before] and [patched_dir]. *)
Definition prepare (self : Runner) (program_dir : pystr)
    : M (path * TestOutcome * path) :=
  let source_dir := resolve env (Path env program_dir) in
  found <- is_dir source_dir ;;
  if negb found then
    raise (FileNotFoundError
             (lit "Program directory not found: " ++ source_dir))
  else
  before <- _run_tests self source_dir ;;
  patched_dir <- mkdtemp (path_name env source_dir ++ lit "_patched_") ;;
  rmtree patched_dir ;;
  copytree source_dir patched_dir ;;
  ret (source_dir, before, patched_dir).

(** Lines 45 to 56: the dictionary [report]. *)
Definition build_report (source_dir : path) (before : TestOutcome)
    (patched_dir : path) (keep_patched_dir : bool)
    (locals : bool * option pystr * option TestOutcome) : Report :=
  let '(patch_applied, patch_error, after) := locals in
  {| name := path_name env source_dir;
     program_dir := source_dir;
     patched_dir := if keep_patched_dir then Some patched_dir else None;
     before := before;
     after := after;
     patch_applied := patch_applied;
     patch_error := patch_error;
     status := _status before after patch_applied |}.

(** Lines 58 to 61: the optional write of the report. *)
Definition write_report (report_path : option pystr) (report : Report)
    : M unit :=
  match report_path with
  | Some report_path =>
      let output_path := Path env report_path in
      mkdir (parent env output_path) ;;
      write_text output_path (json_dumps env report)
  | None => ret tt
  end.

(** Lines 58 to 66: write, clean up, return. *)
Definition deliver (report_path : option pystr) (keep_patched_dir : bool)
    (patched_dir : path) (report : Report) : M Report :=
  write_report report_path report ;;
  (if negb keep_patched_dir then rmtree patched_dir else ret tt) ;;
  ret report.

(** What lines 58 to 66 make of a finished report [r] in world [w]: [run]
    returns [r], unless writing the report file raises, and then that
    exception is the outcome of [run]. *)
Definition delivered (report_path : option pystr) (r : Report) (w : world)
    (outcome : result Report) : Prop :=
  outcome = Ok r
  \/ exists e, fst (write_report report_path r w) = Raise e
               /\ outcome = Raise e.

End Runner.

(** ** The properties under study *)

(** The invariant of the data model, on a report: [after] is present
    exactly when [patch_applied] is true, [patch_error] exactly when it is
    false, and the status is ["patch_failed"] exactly when it is false. *)
Definition report_invariant (r : Report) : Prop :=
  (is_Some (after r) ↔ patch_applied r = true)
  ∧ (is_Some (patch_error r) ↔ patch_applied r = false)
  ∧ (status r = PATCH_FAILED ↔ patch_applied r = false).

(** The verdict table read as a function of [patch_applied],
    [before.passed] and [after.passed] or its absence: ["patch_failed"]
    when the patch did not apply, ["repaired"] and ["regressed"] on their
    rows, ["not_repaired"] in every other case. *)
Definition verdict_table (patch_applied before_passed : bool)
    (after_passed : option bool) : pystr :=
  if negb patch_applied then PATCH_FAILED
  else match before_passed, after_passed with
       | false, Some true => REPAIRED
       | true, Some false => REGRESSED
       | _, _ => NOT_REPAIRED
       end.

(** The same table with the row that the code adds: an absent [after] is
    ["patch_failed"] whatever [patch_applied] is. *)
Definition verdict_of_code (patch_applied before_passed : bool)
    (after_passed : option bool) : pystr :=
  match after_passed with
  | None => PATCH_FAILED
  | Some _ => verdict_table patch_applied before_passed after_passed
  end.

(** The processes started so far, oldest first. *)
Definition spawned (l : list event) : list (list pystr * path) :=
  omap (fun e => match e with
                 | EvSpawn args cwd => Some (args, cwd)
                 | _ => None
                 end) l.

(** The text to record when the apply step exits with a non-zero status:
    the stripped error stream if that is not empty, otherwise the stripped
    output stream if that is not empty, otherwise a fixed message. *)
Definition apply_error_text (result : CompletedProcess) : pystr :=
  match strip (cp_stderr result), strip (cp_stdout result) with
  | c :: err, _ => c :: err
  | [], c :: out => c :: out
  | [], [] => lit "patch apply failed"
  end.

(** What [_apply_patch] makes of the answer to its [subprocess.run] call
    (lines 98 to 107): nothing to report when the exit status is 0, a
    [RuntimeError] carrying the recorded text when it is not, and the
    exception itself when [git] could not be run. *)
Definition apply_outcome (r : result CompletedProcess) : result unit :=
  match r with
  | Ok cp => if cp_returncode cp =? 0 then Ok tt
             else Raise (RuntimeError (apply_error_text cp))
  | Raise e => Raise e
  end.

(** ** A concrete evaluation

    One program directory, one workspace, and an environment whose answers
    are fixed by a scenario: what the baseline run, the apply step and the
    second run do, how the copy ends and whether the report can be
    written. *)
Module Demo.

Definition source : path := lit "/work/case_001".
Definition workspace : path := lit "/tmp/case_001_patched_k3v9".
Definition temp_diff : path := lit "/tmp/tmpq81.diff".
Definition patch_file : path := lit "/work/fix.diff".
Definition report_file : path := lit "/out/report.json".
Definition inline_patch : pystr := lit "--- a/buggy.py".

Fixpoint until_slash (s : pystr) : pystr :=
  match s with
  | [] => []
  | c :: s' => if (c =? 47)%N then [] else c :: until_slash s'
  end.

Fixpoint after_slash (s : pystr) : pystr :=
  match s with
  | [] => []
  | c :: s' => if (c =? 47)%N then s' else after_slash s'
  end.

Definition exits (code : Z) (out err : pystr) : result CompletedProcess :=
  Ok {| cp_returncode := code; cp_stdout := out; cp_stderr := err |}.

(** The test command is a script of the program directory; the patch may
    remove it, and then it cannot be started in the workspace. *)
Definition no_such_script : exn :=
  {| exn_class := lit "FileNotFoundError";
     exn_str := lit "[Errno 2] No such file or directory: './run_tests.sh'" |}.


Definition no_arguments : exn :=
  {| exn_class := lit "IndexError";
     exn_str := lit "list index out of range" |}.

Definition disk_full : exn :=
  {| exn_class := lit "OSError";
     exn_str := lit "[Errno 28] No space left on device" |}.

(** [shutil.Error], raised by [copytree] once the directory exists and a
    file in it could not be copied. *)
Definition copy_error : exn :=
  {| exn_class := lit "Error";
     exn_str := lit "[('/work/case_001/buggy.py', "
                ++ lit "'/tmp/case_001_patched_k3v9/buggy.py', "
                ++ lit "'[Errno 28] No space left on device')]" |}.

(** What [git apply] prints when a hunk does not match, with its newline. *)
Definition git_complaint : pystr :=
  lit "error: patch failed: buggy.py:1" ++ [10%N].

Record scenario : Type := {
  baseline : result CompletedProcess;
  applying : result CompletedProcess;
  second_run : result CompletedProcess;
  copying : copy_outcome;
  report_write : option exn
}.

Definition env_of (s : scenario) : Env :=
  {| Path := fun text => text;
     resolve := fun p => p;
     path_name := fun p => rev (until_slash (rev p));
     parent := fun p => rev (after_slash (rev p));
     json_dumps := fun r => lit "status: " ++ status r;
     os_spawn := fun args cwd f =>
       match args with
       | prog :: _ =>
           if bool_decide (prog = lit "git") then (applying s, f)
           else if bool_decide (cwd = source) then (baseline s, f)
           else (second_run s, f)
       | [] => (Raise no_arguments, f)
       end;
     os_mkdtemp := fun _ _ => Ok workspace;
     os_copytree := fun _ _ _ => copying s;
     os_tempfile := fun _ => Ok temp_diff;
     os_write := fun p _ _ =>
       if bool_decide (p = report_file) then report_write s else None;
     os_close := fun _ _ => None;
     os_mkdir := fun _ _ => None |}.

Definition world0 : world :=
  {| fs := {| dirs := {[source]};
              files := {[patch_file := lit "--- a/buggy.py"]} |};
     log := [] |}.

Definition tests_fail : result CompletedProcess :=
  exits 1 (lit "1 failed, 5 passed") [].
Definition tests_pass : result CompletedProcess :=
  exits 0 (lit "6 passed") [].

(** The patch applies and repairs the program. *)
Definition repairing : scenario :=
  {| baseline := tests_fail; applying := exits 0 [] [];
     second_run := tests_pass; copying := Copied; report_write := None |}.

(** The patch applies, then the test command cannot be started in the
    workspace. *)
Definition second_run_unstartable : scenario :=
  {| baseline := tests_fail; applying := exits 0 [] [];
     second_run := Raise no_such_script; copying := Copied;
     report_write := None |}.

(** The test command cannot be started at all. *)
Definition baseline_unstartable : scenario :=
  {| baseline := Raise no_such_script; applying := exits 0 [] [];
     second_run := Raise no_such_script; copying := Copied;
     report_write := None |}.

(** [git apply] rejects the patch. *)
Definition rejected : scenario :=
  {| baseline := tests_fail;
     applying := exits 1 [] git_complaint;
     second_run := tests_pass; copying := Copied; report_write := None |}.


(** The copy into the workspace runs out of space. *)
Definition copy_fails : scenario :=
  {| baseline := tests_fail; applying := exits 0 [] [];
     second_run := tests_pass; copying := CopyFailed true copy_error;
     report_write := None |}.

(** The report cannot be written. *)
Definition report_unwritable : scenario :=
  {| baseline := tests_fail; applying := exits 0 [] [];
     second_run := tests_pass; copying := Copied;
     report_write := Some disk_full |}.

Definition runner : Runner := __init__ (Some [lit "./run_tests.sh"]).

(** The outcomes of the two test runs, and the report of an evaluation of
    [source] that keeps no workspace, by its last four fields. *)
Definition failing : TestOutcome :=
  {| passed := false; returncode := 1;
     stdout := lit "1 failed, 5 passed"; stderr := [] |}.

Definition passing : TestOutcome :=
  {| passed := true; returncode := 0; stdout := lit "6 passed";
     stderr := [] |}.

Definition report_with (after : option TestOutcome) (patch_applied : bool)
    (patch_error : option pystr) (status : pystr) : Report :=
  {| name := lit "case_001";
     program_dir := source;
     patched_dir := None;
     before := failing;
     after := after;
     patch_applied := patch_applied;
     patch_error := patch_error;
     status := status |}.

Definition repaired_report : Report :=
  report_with (Some passing) true None REPAIRED.

(** The report when the second run cannot be started: the patch applied,
    yet there is no [after]. *)
Definition orphan_report : Report :=
  report_with None true (Some (exn_str no_such_script)) PATCH_FAILED.

Definition rejected_report : Report :=
  report_with None false (Some (lit "error: patch failed: buggy.py:1"))
    PATCH_FAILED.

(** The evaluation of an inline patch under a scenario, without and with a
    report file; the workspace is not kept. *)
Definition evaluate (s : scenario) : result Report * world :=
  run (env_of s) runner source inline_patch None false world0.

Definition evaluate_to_file (s : scenario) : result Report * world :=
  run (env_of s) runner source inline_patch (Some report_file) false world0.

(** The world in which the [try] block of [evaluate] starts. *)
Definition prepared (s : scenario) : world :=
  snd (prepare (env_of s) runner source world0).

End Demo.

(** ** The rest of the repository *)

(** *** The command line of [runner.py] *)

(** What [parser.parse_args(argv)] returns: the three required options,
    the test command (by default the text [python -m pytest -q]) and the
    flag [--keep-patched-dir]. *)
Record Namespace : Type := {
  arg_program : pystr;
  arg_patch : pystr;
  arg_report : pystr;
  arg_test_command : pystr;
  arg_keep_patched_dir : bool
}.

(** [main], from the parsed arguments on (lines 136 to 144).  [shlex.split]
    is the library's and is taken as given: the words of a command line, or
    a [ValueError].  The value of [main] is its exit status together with
    the text it printed; nothing is printed before the last line. *)
Definition main (env : Env) (shlex_split : pystr -> result (list pystr))
    (args : Namespace) : M (Z * pystr) :=
  fun w =>
    match shlex_split (arg_test_command args) with
    | Raise e => (Raise e, w)
    | Ok words =>
        (let runner := __init__ (Some words) in
         report <- run env runner (arg_program args) (arg_patch args)
                     (Some (arg_report args)) (arg_keep_patched_dir args) ;;
         let printed := json_dumps env report in
         ret (0, printed)) w
    end.

(** *** [report.py] *)

Definition TypeError (msg : pystr) : exn :=
  {| exn_class := lit "TypeError"; exn_str := msg |}.

(** [dataclasses.asdict(obj)]: the fields of [obj] when the class of [obj]
    is a dataclass, a [TypeError] for any other object. *)
Definition asdict {A : Type} (is_dataclass_instance : bool) (obj : A)
    : result A :=
  if is_dataclass_instance then Ok obj
  else Raise (TypeError
                (lit "asdict() should be called on dataclass instances")).

Module ReportPy.

(** [PytestSummary], decorated with [@dataclass(frozen=True)]. *)
Record PytestSummary : Type := {
  total : Z;
  passed : Z;
  failed : Z;
  errors : Z;
  skipped : Z
}.

(** [RunReport]: a plain class with seven annotated attributes.  The
    decorator of line 8 applies to [PytestSummary] only; [RunReport], line
    16, has none. *)
Record RunReport : Type := {
  case_path : pystr;
  pytest_exit_code : Z;
  duration_seconds : spec_float;
  junit_xml_path : pystr;
  stdout : pystr;
  stderr : pystr;
  summary : PytestSummary
}.

Definition RunReport_is_dataclass : bool := false.

(** [RunReport.to_dict]: [asdict(self)], then the two path entries are
    overwritten with their string forms ([str] of a [str] is itself). *)
Definition to_dict (self : RunReport) : result RunReport :=
  match asdict RunReport_is_dataclass self with
  | Raise e => Raise e
  | Ok d =>
      Ok {| case_path := case_path self;
            pytest_exit_code := pytest_exit_code d;
            duration_seconds := duration_seconds d;
            junit_xml_path := junit_xml_path self;
            stdout := stdout d;
            stderr := stderr d;
            summary := summary d |}
  end.

(** [RunReport.save_json].  The argument of [write_text] is evaluated
    after the [mkdir] of line 34 and before [write_text] is called.
    [dumps] stands for [json.dumps(_, indent=2)] on the dictionary. *)
Definition save_json (env : Env) (dumps : RunReport -> pystr)
    (self : RunReport) (output_path : path) : M unit :=
  mkdir env (parent env output_path) ;;
  (fun w =>
     match to_dict self with
     | Raise e => (Raise e, w)
     | Ok d => write_text env output_path (dumps d) w
     end).

End ReportPy.

(** *** More vocabulary for the log *)

(** The names that [rmtree] and [unlink] were called on, oldest first. *)
Definition removals (l : list event) : list path :=
  omap (fun e => match e with
                 | EvRmtree p | EvUnlink p => Some p
                 | _ => None
                 end) l.

(** The names that were written to, oldest first. *)
Definition written (l : list event) : list path :=
  omap (fun e => match e with
                 | EvWrite p _ => Some p
                 | _ => None
                 end) l.

(** *** The calls an evaluation may make *)

(** Names that the operating system hands out: the directory returned by
    some [mkdtemp], the file created by some [NamedTemporaryFile]. *)
Definition made_by_mkdtemp (env : Env) (p : path) : Prop :=
  exists prefix f, os_mkdtemp env prefix f = Ok p.

Definition made_by_tempfile (env : Env) (p : path) : Prop :=
  exists f, os_tempfile env f = Ok p.

(** The calls that [run] can make, given its receiver and arguments: what
    each call of the source may be applied to. *)
Definition permitted (env : Env) (self : Runner) (program_dir patch : pystr)
    (report_path : option pystr) (e : event) : Prop :=
  let source_dir := resolve env (Path env program_dir) in
  match e with
  | EvSpawn args cwd =>
      (args = test_command self
       /\ (cwd = source_dir \/ made_by_mkdtemp env cwd))
      \/ (exists diff_file,
             args = git_apply diff_file
             /\ made_by_mkdtemp env cwd
             /\ (diff_file = resolve env (Path env patch)
                 \/ made_by_tempfile env diff_file))
  | EvMkdtemp prefix => prefix = path_name env source_dir ++ lit "_patched_"
  | EvRmtree p => made_by_mkdtemp env p
  | EvCopytree src dst => src = source_dir /\ made_by_mkdtemp env dst
  | EvTempfile => True
  | EvWrite p text =>
      (made_by_tempfile env p /\ text = patch)
      \/ (exists rp r, report_path = Some rp /\ p = Path env rp
                       /\ text = json_dumps env r)
  | EvClose p => made_by_tempfile env p
  | EvUnlink p => made_by_tempfile env p
  | EvMkdir p =>
      exists rp, report_path = Some rp /\ p = parent env (Path env rp)
  end.

(** [confined ok post m]: whatever [m] returns or raises, it adds to the
    log only calls that satisfy [ok], and a returned value satisfies
    [post]. *)
Definition confined {A : Type} (ok : event -> Prop) (post : A -> Prop)
    (m : M A) : Prop :=
  forall w r w',
    m w = (r, w') ->
    (exists l, log w' = log w ++ l /\ Forall ok l)
    /\ (forall a, r = Ok a -> post a).

(** *** More concrete evaluations *)
Module Cases.

Import Demo.

(** As [env_of], but the temporary diff file cannot be written. *)
Definition env_temp_unwritable (s : scenario) : Env :=
  {| Path := Path (env_of s);
     resolve := resolve (env_of s);
     path_name := path_name (env_of s);
     parent := parent (env_of s);
     json_dumps := json_dumps (env_of s);
     os_spawn := os_spawn (env_of s);
     os_mkdtemp := os_mkdtemp (env_of s);
     os_copytree := os_copytree (env_of s);
     os_tempfile := os_tempfile (env_of s);
     os_write := fun p _ _ =>
       if bool_decide (p = temp_diff) then Some disk_full else None;
     os_close := os_close (env_of s);
     os_mkdir := os_mkdir (env_of s) |}.

(** The tests pass before the patch and fail after it. *)
Definition breaking : scenario :=
  {| baseline := tests_pass; applying := exits 0 [] [];
     second_run := tests_fail; copying := Copied; report_write := None |}.

(** [git apply] succeeds and warns on its error stream. *)
Definition applying_with_warning : scenario :=
  {| baseline := tests_fail;
     applying := exits 0 [] (lit "warning: 1 line adds whitespace errors.");
     second_run := tests_pass; copying := Copied; report_write := None |}.

(** [git apply] fails and prints only blank lines. *)
Definition silent_rejection : scenario :=
  {| baseline := tests_fail;
     applying := exits 128 [10%N] [32%N; 10%N];
     second_run := tests_pass; copying := Copied; report_write := None |}.

(** A stand-in for [shlex.split] on command lines without quotes: the
    words between blanks. *)
Fixpoint words_from (word : pystr) (s : pystr) : list pystr :=
  match s with
  | [] => match word with [] => [] | _ => [rev word] end
  | c :: s' =>
      if (c =? 32)%N then
        match word with
        | [] => words_from [] s'
        | _ => rev word :: words_from [] s'
        end
      else words_from (c :: word) s'
  end.

Definition split_blanks (s : pystr) : result (list pystr) :=
  Ok (words_from [] s).

Definition command_line (test_command : pystr) (keep : bool) : Namespace :=
  {| arg_program := source;
     arg_patch := inline_patch;
     arg_report := report_file;
     arg_test_command := test_command;
     arg_keep_patched_dir := keep |}.

(** A stand-in for [shlex.split] on a command line with an open quote. *)
Definition no_closing_quotation : exn :=
  {| exn_class := lit "ValueError"; exn_str := lit "No closing quotation" |}.

Definition split_unbalanced (s : pystr) : result (list pystr) :=
  Raise no_closing_quotation.


(** The report when the tests pass before the patch and fail after it. *)
Definition regressed_report : Report :=
  {| name := lit "case_001";
     program_dir := source;
     patched_dir := None;
     before := passing;
     after := Some failing;
     patch_applied := true;
     patch_error := None;
     status := REGRESSED |}.

Definition a_run_report : ReportPy.RunReport :=
  {| ReportPy.case_path := lit "datasets/mini_bugs/case_001";
     ReportPy.pytest_exit_code := 1;
     ReportPy.duration_seconds := S754_finite false 3 (-1);
     ReportPy.junit_xml_path := lit "out/junit.xml";
     ReportPy.stdout := lit "1 failed, 5 passed";
     ReportPy.stderr := [];
     ReportPy.summary :=
       {| ReportPy.total := 6; ReportPy.passed := 5; ReportPy.failed := 1;
          ReportPy.errors := 0; ReportPy.skipped := 0 |} |}.

End Cases.

(** ** Proof tools *)

(** Unfolds the monad and splits on the answers of the environment, one
    [match] at a time, outermost first. *)
Ltac unfold_calls :=
  unfold bind, ret, raise, try_finally, is_dir, is_file, subprocess_run,
    mkdtemp, rmtree, copytree, NamedTemporaryFile, write_text, close, unlink,
    mkdir in *.

Ltac split_match :=
  match goal with
  | |- context [match ?x with _ => _ end] =>
      lazymatch x with
      | context [match _ with _ => _ end] => fail
      | _ => destruct x eqn:?
      end
  end.

Ltac crunch := cbn [fst snd] in *; repeat (split_match; cbn [fst snd] in *).

(** ** The model at work *)

Example strip_git_complaint :
  strip ([32; 9]%N ++ Demo.git_complaint)
  = lit "error: patch failed: buggy.py:1".
Proof. reflexivity. Qed.

Example default_test_command :
  test_command (__init__ None) = [lit "python"; lit "-m"; lit "pytest"; lit "-q"]
  /\ test_command (__init__ (Some [])) = test_command (__init__ None)
  /\ test_command (__init__ (Some [lit "make"; lit "check"]))
     = [lit "make"; lit "check"].
Proof. repeat split. Qed.

(** A failing program, a patch that applies, passing tests afterwards. *)
Example evaluate_repairing :
  fst (Demo.evaluate Demo.repairing) = Ok Demo.repaired_report.
Proof. vm_compute. reflexivity. Qed.

(** The calls of that evaluation when the report goes to a file, in order. *)
Example calls_of_an_evaluation :
  log (snd (Demo.evaluate_to_file Demo.repairing))
  = [EvSpawn [lit "./run_tests.sh"] Demo.source;
     EvMkdtemp (lit "case_001_patched_");
     EvRmtree Demo.workspace;
     EvCopytree Demo.source Demo.workspace;
     EvTempfile;
     EvWrite Demo.temp_diff Demo.inline_patch;
     EvClose Demo.temp_diff;
     EvSpawn (git_apply Demo.temp_diff) Demo.workspace;
     EvUnlink Demo.temp_diff;
     EvSpawn [lit "./run_tests.sh"] Demo.workspace;
     EvMkdir (lit "/out");
     EvWrite Demo.report_file (lit "status: repaired");
     EvRmtree Demo.workspace].
Proof. vm_compute. reflexivity. Qed.

(** A patch that [git apply] rejects. *)
Example evaluate_rejected :
  fst (Demo.evaluate Demo.rejected) = Ok Demo.rejected_report.
Proof. vm_compute. reflexivity. Qed.

(** A program directory that does not exist: nothing is run or created. *)
Example evaluate_missing_source :
  run (Demo.env_of Demo.repairing) Demo.runner (lit "/work/case_002")
    Demo.inline_patch None false Demo.world0
  = (Raise (FileNotFoundError
              (lit "Program directory not found: /work/case_002")),
     Demo.world0).
Proof. vm_compute. reflexivity. Qed.

(** ** The verdict *)

Lemma statuses_distinct :
  NoDup [PATCH_FAILED; REPAIRED; REGRESSED; NOT_REPAIRED].
Proof. apply (bool_decide_unpack _). vm_compute. exact I. Qed.

Lemma status_code_table before after patch_applied :
  _status before after patch_applied
  = verdict_of_code patch_applied (passed before) (passed <$> after).
Proof.
  unfold _status, verdict_of_code, verdict_table.
  destruct patch_applied, after as [a|]; cbn; try reflexivity.
  destruct (passed before), (passed a); reflexivity.
Qed.

Lemma verdict_of_code_range patch_applied before_passed after_passed :
  verdict_of_code patch_applied before_passed after_passed
  ∈ [PATCH_FAILED; REPAIRED; REGRESSED; NOT_REPAIRED].
Proof.
  unfold verdict_of_code, verdict_table.
  destruct patch_applied, before_passed, after_passed as [[]|]; cbn;
    set_solver.
Qed.

(** C2, as the code has it.  The verdict is a function of [patch_applied],
    [before.passed] and [after.passed] or its absence, and takes one of the
    four values.  It is the table of the specification wherever [after] is
    present; where [after] is absent it is ["patch_failed"], also when
    [patch_applied] is true. *)
Theorem status_is_table_with_absent_row :
  forall (before : TestOutcome) (after : option TestOutcome)
         (patch_applied : bool),
    _status before after patch_applied
    = verdict_of_code patch_applied (passed before) (passed <$> after)
    /\ (forall out : TestOutcome,
          _status before (Some out) patch_applied
          = verdict_table patch_applied (passed before) (Some (passed out)))
    /\ _status before None patch_applied = PATCH_FAILED
    /\ _status before after patch_applied
       ∈ [PATCH_FAILED; REPAIRED; REGRESSED; NOT_REPAIRED].
Proof.
  intros before after patch_applied. repeat split.
  - apply status_code_table.
  - intros out. now rewrite status_code_table.
  - now rewrite status_code_table.
  - rewrite status_code_table. apply verdict_of_code_range.
Qed.

(** C2 as stated fails where the patch applied and [after] is absent: the
    table says ["not_repaired"], the code answers ["patch_failed"]. *)
Lemma status_differs_from_table_without_after :
  _status {| passed := false; returncode := 1; stdout := []; stderr := [] |}
          None true
  <> verdict_table true false (passed <$> None).
Proof. vm_compute. discriminate. Qed.

(** ** Text and log helpers *)

Lemma spawned_app l1 l2 : spawned (l1 ++ l2) = spawned l1 ++ spawned l2.
Proof. unfold spawned. apply omap_app. Qed.

Lemma por_cascade (result : CompletedProcess) :
  strip (cp_stderr result) ||s strip (cp_stdout result)
    ||s lit "patch apply failed"
  = apply_error_text result.
Proof.
  unfold apply_error_text, por, truthy.
  destruct (strip (cp_stderr result)), (strip (cp_stdout result)); reflexivity.
Qed.

Section Facts.

Variable env : Env.

(** *** [bind] *)

Lemma bind_Ok {A B} (m : M A) (k : A -> M B) w a w1 :
  m w = (Ok a, w1) -> bind m k w = k a w1.
Proof. intros H. unfold bind. now rewrite H. Qed.

Lemma bind_Raise {A B} (m : M A) (k : A -> M B) w e w1 :
  m w = (Raise e, w1) -> bind m k w = (Raise e, w1).
Proof. intros H. unfold bind. now rewrite H. Qed.

Lemma bind_Ok_inv {A B} (m : M A) (k : A -> M B) w b w' :
  bind m k w = (Ok b, w') ->
  exists a w1, m w = (Ok a, w1) /\ k a w1 = (Ok b, w').
Proof.
  unfold bind. destruct (m w) as [[a|e] w1]; [eauto | discriminate].
Qed.

(** *** [run] is the sequence of its blocks *)

Lemma run_blocks self program_dir patch report_path keep w :
  run env self program_dir patch report_path keep w
  = (x <- prepare env self program_dir ;;
     let '(source_dir, before, patched_dir) := x in
     locals <- patch_window env self patched_dir patch ;;
     deliver env report_path keep patched_dir
       (build_report env source_dir before patched_dir keep locals)) w.
Proof.
  unfold run, prepare, deliver, build_report, write_report.
  unfold bind, ret, raise.
  crunch; try reflexivity; try congruence.
Qed.

(** The [try] block never raises: it ends in one of three ways. *)
Lemma patch_window_cases self d patch w :
  (exists e w1, _apply_patch env d patch w = (Raise e, w1)
     /\ patch_window env self d patch w
        = (Ok (false, Some (exn_str e), None), w1))
  \/ (exists w1 e w2, _apply_patch env d patch w = (Ok tt, w1)
       /\ _run_tests env self d w1 = (Raise e, w2)
       /\ patch_window env self d patch w
          = (Ok (true, Some (exn_str e), None), w2))
  \/ (exists w1 out w2, _apply_patch env d patch w = (Ok tt, w1)
       /\ _run_tests env self d w1 = (Ok out, w2)
       /\ patch_window env self d patch w
          = (Ok (true, None, Some out), w2)).
Proof.
  unfold patch_window.
  destruct (_apply_patch env d patch w) as [[[]|e] w1].
  - destruct (_run_tests env self d w1) as [[out|e] w2] eqn:E.
    + right; right. exists w1, out, w2. auto.
    + right; left. exists w1, e, w2. auto.
  - left. exists e, w1. auto.
Qed.

Lemma deliver_Ok_inv rp keep d r w r' w' :
  deliver env rp keep d r w = (Ok r', w') -> r' = r.
Proof.
  unfold deliver, write_report. unfold_calls. crunch; congruence.
Qed.

Lemma deliver_delivered rp keep d r w :
  delivered env rp r w (fst (deliver env rp keep d r w)).
Proof.
  unfold delivered, deliver, bind.
  destruct (write_report env rp r w) as [[[]|e] w1]; cbn [fst].
  - left. unfold rmtree, ret. destruct (negb keep); reflexivity.
  - right. eauto.
Qed.

Lemma run_Ok_inv self pd patch rp keep w r w' :
  run env self pd patch rp keep w = (Ok r, w') ->
  exists src b d w3 locals w4,
    prepare env self pd w = (Ok (src, b, d), w3)
    /\ patch_window env self d patch w3 = (Ok locals, w4)
    /\ r = build_report env src b d keep locals
    /\ deliver env rp keep d r w4 = (Ok r, w').
Proof.
  rewrite run_blocks. intros H.
  apply bind_Ok_inv in H as ([[src b] d] & w3 & Hp & H).
  apply bind_Ok_inv in H as (locals & w4 & Hw & H).
  pose proof (deliver_Ok_inv _ _ _ _ _ _ _ H) as ->.
  eauto 10.
Qed.

(** Forward: once the workspace is prepared and the [try] block has left
    its locals, [run] is the delivery of the report built from them. *)
Lemma run_from_window self pd patch rp keep w src b d w3 locals w4 :
  prepare env self pd w = (Ok (src, b, d), w3) ->
  patch_window env self d patch w3 = (Ok locals, w4) ->
  run env self pd patch rp keep w
  = deliver env rp keep d (build_report env src b d keep locals) w4.
Proof.
  intros Hp Hw. rewrite run_blocks.
  rewrite (bind_Ok _ _ _ _ _ Hp). cbn beta iota.
  now rewrite (bind_Ok _ _ _ _ _ Hw).
Qed.

(** *** The test executor and the preparation of the workspace *)

Lemma run_tests_spec self dir w cp w1 :
  subprocess_run env (test_command self) dir w = (Ok cp, w1) ->
  _run_tests env self dir w
  = (Ok {| passed := cp_returncode cp =? 0; returncode := cp_returncode cp;
           stdout := cp_stdout cp; stderr := cp_stderr cp |}, w1).
Proof. intros H. unfold _run_tests. now rewrite (bind_Ok _ _ _ _ _ H). Qed.

Lemma run_tests_raise self dir w e w1 :
  subprocess_run env (test_command self) dir w = (Raise e, w1) ->
  _run_tests env self dir w = (Raise e, w1).
Proof. intros H. unfold _run_tests. now rewrite (bind_Raise _ _ _ _ _ H). Qed.

Lemma subprocess_run_log args cwd w r w1 :
  subprocess_run env args cwd w = (r, w1) ->
  log w1 = log w ++ [EvSpawn args cwd].
Proof.
  unfold subprocess_run. destruct (os_spawn env args cwd (fs w)).
  intros [= <- <-]. reflexivity.
Qed.

Lemma run_tests_log self dir w r w1 :
  _run_tests env self dir w = (r, w1) ->
  log w1 = log w ++ [EvSpawn (test_command self) dir].
Proof.
  unfold _run_tests, bind, ret.
  destruct (subprocess_run env (test_command self) dir w) as [[cp|e] w2] eqn:E;
    intros [= <- <-]; eapply subprocess_run_log; eauto.
Qed.

Lemma prepare_Ok_inv self pd w src b d w3 :
  prepare env self pd w = (Ok (src, b, d), w3) ->
  src = resolve env (Path env pd)
  /\ src ∈ dirs (fs w)
  /\ exists w1, _run_tests env self src w = (Ok b, w1)
  /\ spawned (log w3) = spawned (log w) ++ [(test_command self, src)].
Proof.
  unfold prepare. intros H.
  apply bind_Ok_inv in H as (found & w0 & Hd & H).
  unfold is_dir in Hd. injection Hd as <- <-.
  case_bool_decide as Hin; cbn [negb] in H; [| discriminate].
  apply bind_Ok_inv in H as (b' & w1 & Hb & H).
  apply bind_Ok_inv in H as (d' & w2 & Hm & H).
  apply bind_Ok_inv in H as ([] & w2' & Hr & H).
  apply bind_Ok_inv in H as ([] & w2'' & Hc & H).
  injection H as <- <- <- <-.
  split; [reflexivity|]. split; [assumption|]. exists w1. split; [assumption|].
  apply run_tests_log in Hb.
  unfold mkdtemp in Hm. unfold rmtree in Hr. unfold copytree in Hc.
  revert Hm Hr Hc. crunch; intros; simplify_eq; cbn; rewrite ?Hb, ?spawned_app; cbn.
  all: rewrite ?spawned_app; cbn; rewrite ?app_nil_r; try reflexivity.
Qed.

(** *** [_apply_patch] *)

Lemma stage_diff_file patch w :
  is_Some (files (fs w) !! Path env patch) ->
  stage_diff env patch w = (Ok (resolve env (Path env patch), None), w).
Proof.
  intros H. unfold stage_diff, bind, is_file, ret.
  now rewrite bool_decide_eq_true_2.
Qed.

Lemma stage_diff_text patch w diff tp w1 :
  files (fs w) !! Path env patch = None ->
  stage_diff env patch w = (Ok (diff, tp), w1) ->
  tp = Some diff
  /\ files (fs w1) !! diff = Some patch
  /\ dirs (fs w1) = dirs (fs w)
  /\ log w1 = log w ++ [EvTempfile; EvWrite diff patch; EvClose diff].
Proof.
  intros Hnone. unfold stage_diff, bind at 1, is_file.
  rewrite bool_decide_eq_false_2 by (rewrite Hnone; intros [? [=]]).
  intros H.
  apply bind_Ok_inv in H as (t & w2 & Ht & H).
  apply bind_Ok_inv in H as ([] & w3 & Hw & H).
  apply bind_Ok_inv in H as ([] & w4 & Hc & H).
  injection H as <- <- <-.
  unfold NamedTemporaryFile in Ht. unfold write_text in Hw. unfold close in Hc.
  revert Ht Hw Hc. crunch; intros; simplify_eq; cbn.
  repeat split; try reflexivity.
  - apply lookup_insert_eq.
  - now rewrite <- !app_assoc.
Qed.

Lemma apply_patch_staged d patch w diff tp w1 r w2 :
  stage_diff env patch w = (Ok (diff, tp), w1) ->
  subprocess_run env (git_apply diff) d w1 = (r, w2) ->
  _apply_patch env d patch w
  = (apply_outcome r,
     match tp with Some t => snd (unlink t w2) | None => w2 end).
Proof.
  intros Hs Hr. unfold _apply_patch.
  rewrite (bind_Ok _ _ _ _ _ Hs). unfold try_finally, bind at 1.
  rewrite Hr. unfold apply_outcome.
  destruct r as [cp|e]; [rewrite <- por_cascade; destruct (cp_returncode cp =? 0)|];
    destruct tp; reflexivity.
Qed.

Lemma apply_patch_stage_raises d patch w e w1 :
  stage_diff env patch w = (Raise e, w1) ->
  _apply_patch env d patch w = (Raise e, w1).
Proof. intros H. unfold _apply_patch. now rewrite (bind_Raise _ _ _ _ _ H). Qed.

(** *** Delivery of the report and the [try] block *)

Lemma deliver_spawned rp keep d r w :
  spawned (log (snd (deliver env rp keep d r w))) = spawned (log w).
Proof.
  unfold deliver, write_report. unfold_calls.
  destruct rp, keep; crunch; cbn; rewrite ?spawned_app; cbn;
    rewrite ?app_nil_r; reflexivity.
Qed.

Lemma deliver_cleans rp d r w r' w' :
  deliver env rp false d r w = (Ok r', w') -> d ∉ dirs (fs w').
Proof.
  unfold deliver. intros H.
  apply bind_Ok_inv in H as (u & w1 & Hu & H).
  cbn [negb] in H. unfold bind, rmtree, ret in H. simplify_eq.
  cbn. apply not_elem_of_difference. right. now apply elem_of_singleton.
Qed.

(** Contained exception: report fields *)
Lemma build_report_failed src b d keep pa msg :
  let r := build_report env src b d keep (pa, Some msg, None) in
  status r = PATCH_FAILED /\ patch_error r = Some msg /\ after r = None
  /\ patch_applied r = pa /\ before r = b.
Proof. cbn. unfold _status. destruct pa; auto. Qed.

Lemma window_apply_raises self d patch w e w1 :
  _apply_patch env d patch w = (Raise e, w1) ->
  patch_window env self d patch w = (Ok (false, Some (exn_str e), None), w1).
Proof. intros H. unfold patch_window. now rewrite H. Qed.

Lemma window_rerun_raises self d patch w w1 e w2 :
  _apply_patch env d patch w = (Ok tt, w1) ->
  _run_tests env self d w1 = (Raise e, w2) ->
  patch_window env self d patch w = (Ok (true, Some (exn_str e), None), w2).
Proof. intros H1 H2. unfold patch_window. now rewrite H1, H2. Qed.

Lemma window_rerun_returns self d patch w w1 out w2 :
  _apply_patch env d patch w = (Ok tt, w1) ->
  _run_tests env self d w1 = (Ok out, w2) ->
  patch_window env self d patch w = (Ok (true, None, Some out), w2).
Proof. intros H1 H2. unfold patch_window. now rewrite H1, H2. Qed.

(** what run does once the window has caught [e] *)
Lemma run_contained self pd patch rp keep w src b d w3 pa e w4 :
  prepare env self pd w = (Ok (src, b, d), w3) ->
  patch_window env self d patch w3 = (Ok (pa, Some (exn_str e), None), w4) ->
  exists r,
    delivered env rp r w4 (fst (run env self pd patch rp keep w))
    /\ status r = PATCH_FAILED /\ patch_error r = Some (exn_str e)
    /\ after r = None /\ patch_applied r = pa /\ before r = b
    /\ spawned (log (snd (run env self pd patch rp keep w))) = spawned (log w4).
Proof.
  intros Hp Hw. eexists.
  rewrite (run_from_window self pd patch rp keep w src b d w3 _ w4 Hp Hw).
  split; [apply deliver_delivered|].
  pose proof (build_report_failed src b d keep pa (exn_str e)) as H. cbn zeta in H.
  destruct H as (? & ? & ? & ? & ?). repeat split; try assumption.
  apply deliver_spawned.
Qed.

(** *** Exceptions that leave [run] *)

Lemma prepare_copy_raises self pd w b w1 d w2 e w3 :
  resolve env (Path env pd) ∈ dirs (fs w) ->
  _run_tests env self (resolve env (Path env pd)) w = (Ok b, w1) ->
  mkdtemp env (path_name env (resolve env (Path env pd)) ++ lit "_patched_") w1
  = (Ok d, w2) ->
  copytree env (resolve env (Path env pd)) d (snd (rmtree d w2)) = (Raise e, w3) ->
  prepare env self pd w = (Raise e, w3).
Proof.
  intros Hd Hb Hm Hc. unfold prepare.
  unfold bind at 1. unfold is_dir. rewrite bool_decide_eq_true_2 by assumption.
  cbn [negb]. rewrite (bind_Ok _ _ _ _ _ Hb). rewrite (bind_Ok _ _ _ _ _ Hm).
  unfold bind at 1. unfold rmtree at 1. cbn [snd] in Hc.
  unfold rmtree in Hc. cbn [snd] in Hc.
  now rewrite (bind_Raise _ _ _ _ _ Hc).
Qed.

Lemma run_prepare_raises self pd patch rp keep w e w3 :
  prepare env self pd w = (Raise e, w3) ->
  run env self pd patch rp keep w = (Raise e, w3).
Proof. intros H. rewrite run_blocks. now rewrite (bind_Raise _ _ _ _ _ H). Qed.

Lemma run_baseline_raises self pd patch rp keep w e w1 :
  resolve env (Path env pd) ∈ dirs (fs w) ->
  _run_tests env self (resolve env (Path env pd)) w = (Raise e, w1) ->
  run env self pd patch rp keep w = (Raise e, w1).
Proof.
  intros Hd Hb. apply run_prepare_raises. unfold prepare.
  unfold bind at 1. unfold is_dir. rewrite bool_decide_eq_true_2 by assumption.
  cbn [negb]. now rewrite (bind_Raise _ _ _ _ _ Hb).
Qed.

(** *** The temporary diff file *)

Lemma stage_diff_spawned patch w x w1 :
  stage_diff env patch w = (Ok x, w1) -> spawned (log w1) = spawned (log w).
Proof.
  destruct x as [diff tp].
  destruct (files (fs w) !! Path env patch) as [c|] eqn:E; intros H.
  - rewrite stage_diff_file in H by (rewrite E; eauto). now injection H as _ _ <-.
  - destruct (stage_diff_text patch w diff tp w1 E H) as (_ & _ & _ & ->).
    rewrite spawned_app. cbn. apply app_nil_r.
Qed.


Lemma unlink_log t w : log (snd (unlink t w)) = log w ++ [EvUnlink t].
Proof. reflexivity. Qed.

(** *** Clean-up on return, and the success signal of the apply step *)

Lemma run_returns_workspace_removed self pd patch rp w src b d w3 r w' :
  prepare env self pd w = (Ok (src, b, d), w3) ->
  run env self pd patch rp false w = (Ok r, w') ->
  d ∉ dirs (fs w').
Proof.
  intros Hp H.
  apply run_Ok_inv in H as (src' & b' & d' & w3' & locals & w4 & Hp' & _ & _ & Hd).
  rewrite Hp in Hp'. injection Hp' as <- <- <- <-.
  eapply deliver_cleans, Hd.
Qed.

Lemma apply_succeeds_iff_exit_zero d patch w diff tp w1 cp wg :
  stage_diff env patch w = (Ok (diff, tp), w1) ->
  subprocess_run env (git_apply diff) d w1 = (Ok cp, wg) ->
  fst (_apply_patch env d patch w) = Ok tt <-> cp_returncode cp = 0.
Proof.
  intros Hs Hg. rewrite (apply_patch_staged d patch w diff tp w1 _ wg Hs Hg).
  cbn [fst apply_outcome].
  destruct (Z.eqb_spec (cp_returncode cp) 0); split; congruence.
Qed.

End Facts.

Lemma status_present_not_failed b out :
  _status b (Some out) true <> PATCH_FAILED.
Proof.
  unfold _status; cbn [negb].
  destruct (passed b), (passed out); cbn [negb andb]; discriminate.
Qed.

(** * Properties of an evaluation *)

Import Demo.

(** ** The report and its fields *)

(** C1, as the code has it.  For every evaluation that returns a report,
    [after] is present exactly when [patch_error] is absent and exactly when
    the status is not ["patch_failed"]; a present [after] implies
    [patch_applied], and a false [patch_applied] implies a [patch_error] and
    the status ["patch_failed"].  The three equivalences of the data model
    hold for every report but those of evaluations in which the patch
    applied and the second test run then raised: there [patch_applied] is
    true while [after] is absent, [patch_error] is the message of the
    exception and the status is ["patch_failed"]. *)
Theorem report_fields_follow_after :
  forall env self program_dir patch report_path keep w r w',
    run env self program_dir patch report_path keep w = (Ok r, w') ->
    (is_Some (after r) <-> patch_error r = None)
    /\ (status r = PATCH_FAILED <-> after r = None)
    /\ (is_Some (after r) -> patch_applied r = true)
    /\ (patch_applied r = false ->
        is_Some (patch_error r) /\ status r = PATCH_FAILED)
    /\ (report_invariant r
        \/ exists d w3 w4 e w5,
             _apply_patch env d patch w3 = (Ok tt, w4)
             /\ _run_tests env self d w4 = (Raise e, w5)
             /\ patch_applied r = true /\ after r = None
             /\ patch_error r = Some (exn_str e)
             /\ status r = PATCH_FAILED).
Proof.
  intros env self pd patch rp keep w r w' H.
  apply run_Ok_inv in H as (src & b & d & w3 & locals & w4 & _ & Hw & -> & _).
  destruct (patch_window_cases env self d patch w3)
    as [(e & w1 & Ha & Hw') | [(w1 & e & w2 & Ha & Ht & Hw')
                              | (w1 & out & w2 & Ha & Ht & Hw')]];
    rewrite Hw' in Hw; injection Hw as <- <-;
    cbn [build_report after patch_error patch_applied status];
    unfold report_invariant;
    cbn [build_report after patch_error patch_applied status].
  - change (_status b None false) with PATCH_FAILED.
    repeat split; try discriminate; try (intros [? [=]]); eauto.
    left. repeat split; try discriminate; try (intros [? [=]]); eauto.
  - change (_status b None true) with PATCH_FAILED.
    repeat split; try discriminate; try (intros [? [=]]); eauto.
    right. exists d, w3, w1, e, w2. repeat split; assumption || reflexivity.
  - pose proof (status_present_not_failed b out) as Hne.
    repeat split; try discriminate; try (intros [? [=]]); try contradiction;
      eauto.
    left. repeat split; try discriminate; try (intros [? [=]]);
      try contradiction; eauto.
Qed.

Lemma report_fields_follow_after_witness :
  (is_Some (after repaired_report) <-> patch_error repaired_report = None)
  /\ (status repaired_report = PATCH_FAILED <-> after repaired_report = None)
  /\ (is_Some (after repaired_report) -> patch_applied repaired_report = true)
  /\ (patch_applied repaired_report = false ->
      is_Some (patch_error repaired_report)
      /\ status repaired_report = PATCH_FAILED)
  /\ (report_invariant repaired_report
      \/ exists d w3 w4 e w5,
           _apply_patch (env_of repairing) d inline_patch w3 = (Ok tt, w4)
           /\ _run_tests (env_of repairing) runner d w4 = (Raise e, w5)
           /\ patch_applied repaired_report = true
           /\ after repaired_report = None
           /\ patch_error repaired_report = Some (exn_str e)
           /\ status repaired_report = PATCH_FAILED).
Proof.
  apply (report_fields_follow_after (env_of repairing) runner source
           inline_patch None false world0 repaired_report
           (snd (evaluate repairing))).
  vm_compute. reflexivity.
Defined.

(** C1 as stated fails when the patch applies and the test command cannot
    be started in the workspace: the report has [patch_applied] true, no
    [after], a [patch_error] and the status ["patch_failed"]. *)
Lemma invariant_broken_when_second_run_raises :
  fst (evaluate second_run_unstartable) = Ok orphan_report
  /\ ~ report_invariant orphan_report.
Proof.
  split.
  - vm_compute. reflexivity.
  - unfold report_invariant. cbn. intros ([_ H] & _).
    destruct (H eq_refl) as [? [=]].
Qed.

(** C10.  [_status] answers ["patch_failed"] whenever [after] is absent,
    whatever [patch_applied] is; hence every report without an [after] has
    that status, also the report of an evaluation whose second run raised
    after the patch had applied. *)
Theorem status_without_after_is_patch_failed :
  (forall (before : TestOutcome) (patch_applied : bool),
      _status before None patch_applied = PATCH_FAILED)
  /\ (forall env self program_dir patch report_path keep w r w',
         run env self program_dir patch report_path keep w = (Ok r, w') ->
         after r = None ->
         status r = PATCH_FAILED).
Proof.
  split.
  - intros before []; reflexivity.
  - intros env self pd patch rp keep w r w' H Hnone.
    apply run_Ok_inv in H as (src & b & d & w3 & [[pa pe] af] & w4 & _ & _ & -> & _).
    cbn in *. subst af. destruct pa; reflexivity.
Qed.

Lemma status_without_after_is_patch_failed_witness :
  _status failing None true = PATCH_FAILED
  /\ fst (evaluate second_run_unstartable) = Ok orphan_report
  /\ patch_applied orphan_report = true
  /\ status orphan_report = PATCH_FAILED.
Proof.
  split; [apply (proj1 status_without_after_is_patch_failed)|].
  split; [vm_compute; reflexivity|].
  split; [reflexivity|].
  apply (proj2 status_without_after_is_patch_failed
           (env_of second_run_unstartable) runner source inline_patch None
           false world0 orphan_report
           (snd (evaluate second_run_unstartable))).
  - vm_compute. reflexivity.
  - reflexivity.
Defined.

(** ** The test executor *)

(** C8.  A test run whose process could be started returns an outcome that
    records the exit status and both captured streams unchanged, and
    [passed] is true exactly when the exit status is 0. *)
Theorem run_tests_records_outcome :
  forall env self dir w cp w1,
    subprocess_run env (test_command self) dir w = (Ok cp, w1) ->
    exists out,
      _run_tests env self dir w = (Ok out, w1)
      /\ returncode out = cp_returncode cp
      /\ stdout out = cp_stdout cp
      /\ stderr out = cp_stderr cp
      /\ (passed out = true <-> returncode out = 0).
Proof.
  intros env self dir w cp w1 H. eexists. split; [apply run_tests_spec, H|].
  cbn. repeat split; try apply Z.eqb_eq.
Qed.

Lemma run_tests_records_outcome_witness :
  exists out,
    _run_tests (env_of repairing) runner source world0
    = (Ok out, snd (subprocess_run (env_of repairing)
                      (test_command runner) source world0))
    /\ returncode out = 1
    /\ stdout out = lit "1 failed, 5 passed"
    /\ stderr out = []
    /\ (passed out = true <-> returncode out = 0).
Proof.
  apply (run_tests_records_outcome (env_of repairing) runner
           source world0
           {| cp_returncode := 1; cp_stdout := lit "1 failed, 5 passed";
              cp_stderr := [] |}).
  reflexivity.
Defined.

(** ** Which exceptions leave [run] *)

(** C3, as the code has it.  An exception raised by the patch application
    or by the second test run is caught: [run] builds a report with the
    status ["patch_failed"] and the message of the exception as
    [patch_error], and returns it unless writing the report file raises in
    turn.  An exception raised by the copy into the workspace is not
    caught: it is the outcome of [run]. *)
Theorem window_exceptions_contained_copy_escapes :
  forall env self program_dir patch report_path keep w,
    (forall src b d w3 e w4,
        prepare env self program_dir w = (Ok (src, b, d), w3) ->
        _apply_patch env d patch w3 = (Raise e, w4) ->
        exists r,
          delivered env report_path r w4
            (fst (run env self program_dir patch report_path keep w))
          /\ status r = PATCH_FAILED /\ patch_error r = Some (exn_str e))
    /\ (forall src b d w3 w4 e w5,
        prepare env self program_dir w = (Ok (src, b, d), w3) ->
        _apply_patch env d patch w3 = (Ok tt, w4) ->
        _run_tests env self d w4 = (Raise e, w5) ->
        exists r,
          delivered env report_path r w5
            (fst (run env self program_dir patch report_path keep w))
          /\ status r = PATCH_FAILED /\ patch_error r = Some (exn_str e))
    /\ (forall b w1 d w2 e w3,
        let src := resolve env (Path env program_dir) in
        src ∈ dirs (fs w) ->
        _run_tests env self src w = (Ok b, w1) ->
        mkdtemp env (path_name env src ++ lit "_patched_") w1 = (Ok d, w2) ->
        copytree env src d (snd (rmtree d w2)) = (Raise e, w3) ->
        run env self program_dir patch report_path keep w = (Raise e, w3)).
Proof.
  intros env self pd patch rp keep w. split; [|split].
  - intros src b d w3 e w4 Hp Ha.
    destruct (run_contained env self pd patch rp keep w src b d w3 false e w4 Hp
                (window_apply_raises env self d patch w3 e w4 Ha))
      as (r & Hd & Hs & He & _).
    exists r. auto.
  - intros src b d w3 w4 e w5 Hp Ha Ht.
    destruct (run_contained env self pd patch rp keep w src b d w3 true e w5 Hp
                (window_rerun_raises env self d patch w3 w4 e w5 Ha Ht))
      as (r & Hd & Hs & He & _).
    exists r. auto.
  - intros b w1 d w2 e w3 src Hd Hb Hm Hc.
    apply run_prepare_raises. eapply prepare_copy_raises; eauto.
Qed.

Lemma window_exceptions_contained_copy_escapes_witness :
  (exists r,
      delivered (env_of rejected) None r
        (snd (_apply_patch (env_of rejected) workspace inline_patch
                (prepared rejected)))
        (fst (evaluate rejected))
      /\ status r = PATCH_FAILED
      /\ patch_error r = Some (lit "error: patch failed: buggy.py:1"))
  /\ (exists r,
      delivered (env_of second_run_unstartable) None r
        (snd (patch_window (env_of second_run_unstartable) runner workspace
                inline_patch (prepared second_run_unstartable)))
        (fst (evaluate second_run_unstartable))
      /\ status r = PATCH_FAILED
      /\ patch_error r = Some (exn_str no_such_script))
  /\ evaluate copy_fails = (Raise copy_error, prepared copy_fails).
Proof.
  split; [|split].
  - apply (proj1 (window_exceptions_contained_copy_escapes (env_of rejected)
                    runner source inline_patch None false world0)
             source failing workspace (prepared rejected)
             (RuntimeError (lit "error: patch failed: buggy.py:1"))).
    + vm_compute. reflexivity.
    + vm_compute. reflexivity.
  - apply (proj1 (proj2 (window_exceptions_contained_copy_escapes
                           (env_of second_run_unstartable)
                           runner source inline_patch None false world0))
             source failing workspace (prepared second_run_unstartable)
             (snd (_apply_patch (env_of second_run_unstartable) workspace
                     inline_patch (prepared second_run_unstartable)))
             no_such_script).
    + vm_compute. reflexivity.
    + vm_compute. reflexivity.
    + vm_compute. reflexivity.
  - apply (proj2 (proj2 (window_exceptions_contained_copy_escapes
                           (env_of copy_fails)
                           runner source inline_patch None false world0))
             failing
             (snd (_run_tests (env_of copy_fails) runner source world0))
             workspace
             (snd (mkdtemp (env_of copy_fails) (lit "case_001_patched_")
                     (snd (_run_tests (env_of copy_fails) runner source
                             world0))))).
    + vm_compute. reflexivity.
    + vm_compute. reflexivity.
    + vm_compute. reflexivity.
    + vm_compute. reflexivity.
Defined.

(** C3 as stated fails when the copy raises: the evaluation ends with that
    exception and returns no report. *)
Lemma copy_failure_escapes :
  copytree (env_of copy_fails) source workspace
    (snd (rmtree workspace
            (snd (mkdtemp (env_of copy_fails) (lit "case_001_patched_")
                    (snd (_run_tests (env_of copy_fails) runner source
                            world0))))))
  = (Raise copy_error, prepared copy_fails)
  /\ evaluate copy_fails = (Raise copy_error, prepared copy_fails)
  /\ ~ (exists r, fst (evaluate copy_fails) = Ok r
                  /\ status r = PATCH_FAILED
                  /\ patch_error r = Some (exn_str copy_error)).
Proof.
  split; [vm_compute; reflexivity|].
  split; [vm_compute; reflexivity|].
  intros (r & H & _). vm_compute in H. discriminate H.
Qed.

(** C5.  When the test command cannot be started for the baseline run, the
    exception leaves [_run_tests] and [run] as it is: no outcome and no
    report are made of it.  When the same happens for the run in the
    workspace, after the patch applied, the exception is caught and the
    report has the status ["patch_failed"], the message as [patch_error]
    and no [after]. *)
Theorem spawn_error_fatal_at_baseline_contained_after :
  forall env self program_dir patch report_path keep w e,
    (forall w1,
        let src := resolve env (Path env program_dir) in
        src ∈ dirs (fs w) ->
        subprocess_run env (test_command self) src w = (Raise e, w1) ->
        _run_tests env self src w = (Raise e, w1)
        /\ run env self program_dir patch report_path keep w = (Raise e, w1))
    /\ (forall src b d w3 w4 w5,
        prepare env self program_dir w = (Ok (src, b, d), w3) ->
        _apply_patch env d patch w3 = (Ok tt, w4) ->
        subprocess_run env (test_command self) d w4 = (Raise e, w5) ->
        exists r,
          delivered env report_path r w5
            (fst (run env self program_dir patch report_path keep w))
          /\ status r = PATCH_FAILED
          /\ patch_error r = Some (exn_str e)
          /\ after r = None).
Proof.
  intros env self pd patch rp keep w e. split.
  - intros w1 src Hd Hs. pose proof (run_tests_raise env self src w e w1 Hs) as Ht.
    split; [exact Ht|]. now apply run_baseline_raises.
  - intros src b d w3 w4 w5 Hp Ha Hs.
    pose proof (run_tests_raise env self d w4 e w5 Hs) as Ht.
    destruct (run_contained env self pd patch rp keep w src b d w3 true e w5 Hp
                (window_rerun_raises env self d patch w3 w4 e w5 Ha Ht))
      as (r & Hd & Hst & He & Haf & _).
    exists r. auto.
Qed.

Lemma spawn_error_fatal_at_baseline_contained_after_witness :
  (_run_tests (env_of baseline_unstartable) runner source world0
   = (Raise no_such_script,
      snd (subprocess_run (env_of baseline_unstartable)
             (test_command runner) source world0))
   /\ evaluate baseline_unstartable
      = (Raise no_such_script,
         snd (subprocess_run (env_of baseline_unstartable)
                (test_command runner) source world0)))
  /\ (exists r,
      delivered (env_of second_run_unstartable) None r
        (snd (patch_window (env_of second_run_unstartable) runner workspace
                inline_patch (prepared second_run_unstartable)))
        (fst (evaluate second_run_unstartable))
      /\ status r = PATCH_FAILED
      /\ patch_error r = Some (exn_str no_such_script)
      /\ after r = None).
Proof.
  split.
  - apply (proj1 (spawn_error_fatal_at_baseline_contained_after
                    (env_of baseline_unstartable) runner source inline_patch
                    None false world0 no_such_script)).
    + vm_compute. reflexivity.
    + vm_compute. reflexivity.
  - apply (proj2 (spawn_error_fatal_at_baseline_contained_after
                    (env_of second_run_unstartable) runner source inline_patch
                    None false world0 no_such_script)
             source failing workspace (prepared second_run_unstartable)
             (snd (_apply_patch (env_of second_run_unstartable) workspace
                     inline_patch (prepared second_run_unstartable)))).
    + vm_compute. reflexivity.
    + vm_compute. reflexivity.
    + vm_compute. reflexivity.
Defined.

(** ** The apply step *)

(** C7.  When [git apply] exits with a non-zero status, [patch_error] is
    the stripped error stream if that is not empty, otherwise the stripped
    output stream if that is not empty, otherwise ["patch apply failed"];
    [after] is absent, and the only processes started by the evaluation are
    the baseline run and [git apply]: no second test run. *)
Theorem nonzero_apply_recorded_no_second_run :
  forall env self program_dir patch report_path keep w
         src b d w3 diff tp w3' cp wg,
    prepare env self program_dir w = (Ok (src, b, d), w3) ->
    stage_diff env patch w3 = (Ok (diff, tp), w3') ->
    subprocess_run env (git_apply diff) d w3' = (Ok cp, wg) ->
    cp_returncode cp <> 0 ->
    exists r w4,
      delivered env report_path r w4
        (fst (run env self program_dir patch report_path keep w))
      /\ patch_error r = Some (apply_error_text cp)
      /\ after r = None
      /\ patch_applied r = false
      /\ status r = PATCH_FAILED
      /\ spawned (log (snd (run env self program_dir patch report_path keep w)))
         = spawned (log w) ++ [(test_command self, src); (git_apply diff, d)].
Proof.
  intros env self pd patch rp keep w src b d w3 diff tp w3' cp wg Hp Hs Hg Hnz.
  pose proof (apply_patch_staged env d patch w3 diff tp w3' (Ok cp) wg Hs Hg) as Ha.
  cbn [apply_outcome] in Ha.
  rewrite (proj2 (Z.eqb_neq _ _) Hnz) in Ha.
  set (w4 := match tp with Some t => snd (unlink t wg) | None => wg end) in *.
  destruct (run_contained env self pd patch rp keep w src b d w3 false
              (RuntimeError (apply_error_text cp)) w4 Hp
              (window_apply_raises env self d patch w3 _ w4 Ha))
    as (r & Hd & Hst & He & Haf & Hpa & _ & Hlog).
  exists r, w4. repeat split; try assumption.
  rewrite Hlog.
  assert (Hw4 : spawned (log w4) = spawned (log wg)).
  { subst w4. destruct tp; [|reflexivity].
    rewrite unlink_log, spawned_app. cbn. apply app_nil_r. }
  rewrite Hw4, (subprocess_run_log env _ _ _ _ _ Hg), spawned_app.
  rewrite (stage_diff_spawned env _ _ _ _ Hs).
  destruct (prepare_Ok_inv env self pd w src b d w3 Hp) as (_ & _ & w1 & _ & ->).
  cbn. now rewrite <- app_assoc.
Qed.

Lemma nonzero_apply_recorded_no_second_run_witness :
  exists r w4,
    delivered (env_of rejected) None r w4 (fst (evaluate rejected))
    /\ patch_error r = Some (lit "error: patch failed: buggy.py:1")
    /\ after r = None
    /\ patch_applied r = false
    /\ status r = PATCH_FAILED
    /\ spawned (log (snd (evaluate rejected)))
       = [([lit "./run_tests.sh"], source);
          (git_apply temp_diff, workspace)].
Proof.
  apply (nonzero_apply_recorded_no_second_run (env_of rejected) runner source
           inline_patch None false world0 source failing workspace
           (prepared rejected) temp_diff (Some temp_diff)
           (snd (stage_diff (env_of rejected) inline_patch (prepared rejected)))
           {| cp_returncode := 1; cp_stdout := [];
              cp_stderr := git_complaint |}
           (snd (subprocess_run (env_of rejected) (git_apply temp_diff)
                   workspace
                   (snd (stage_diff (env_of rejected) inline_patch
                           (prepared rejected)))))).
  - vm_compute. reflexivity.
  - vm_compute. reflexivity.
  - vm_compute. reflexivity.
  - discriminate.
Defined.



(** ** Clean-up *)

(** C4 fails on the code.  With a report file that cannot be written and no
    request to keep the workspace, the evaluation ends with the exception
    of the write, which is the last call made, and the workspace is still
    there: no [rmtree] follows. *)
Theorem workspace_left_when_report_write_fails :
  fst (evaluate_to_file report_unwritable) = Raise disk_full
  /\ workspace ∈ dirs (fs (snd (evaluate_to_file report_unwritable)))
  /\ last (log (snd (evaluate_to_file report_unwritable)))
     = Some (EvWrite report_file (lit "status: repaired")).
Proof. repeat split; vm_compute; reflexivity. Qed.

(** * Further properties of the repository *)

(** ** Helpers *)

(** *** Stripped text *)

Lemma lstrip_idem s : lstrip (lstrip s) = lstrip s.
Proof.
  induction s as [|c s IH]; [reflexivity|].
  cbn. destruct (isspace c) eqn:E; [exact IH|]. cbn. now rewrite E.
Qed.

Lemma lstrip_snoc_nonspace s c :
  isspace c = false -> lstrip (s ++ [c]) = lstrip s ++ [c].
Proof.
  intros Hc. induction s as [|a s IH]; cbn.
  - now rewrite Hc.
  - destruct (isspace a); [exact IH | reflexivity].
Qed.

Lemma rstrip_cons_nonspace c s :
  isspace c = false -> rstrip (c :: s) = c :: rstrip s.
Proof.
  intros Hc. unfold rstrip. cbn [rev].
  rewrite (lstrip_snoc_nonspace _ _ Hc), rev_app_distr. reflexivity.
Qed.

Lemma rstrip_idem s : rstrip (rstrip s) = rstrip s.
Proof. unfold rstrip. now rewrite rev_involutive, lstrip_idem. Qed.

Lemma lstrip_fixed s : lstrip s = s <-> match s with [] => True | c :: _ => isspace c = false end.
Proof.
  destruct s as [|c s]; cbn; [tauto|].
  destruct (isspace c) eqn:E; split; try congruence; try discriminate.
  intros H. exfalso.
  assert (Hlen : (length (lstrip s) <= length s)%nat).
  { clear. induction s as [|a s IH]; cbn; [lia|]. destruct (isspace a); cbn; lia. }
  rewrite H in Hlen. cbn in Hlen. lia.
Qed.

Lemma strip_idem s : strip (strip s) = strip s.
Proof.
  unfold strip.
  assert (H : lstrip (rstrip (lstrip s)) = rstrip (lstrip s)).
  { pose proof (lstrip_idem s) as Hl. apply lstrip_fixed in Hl.
    destruct (lstrip s) as [|c t]; [reflexivity|].
    rewrite (rstrip_cons_nonspace _ _ Hl). apply lstrip_fixed. exact Hl. }
  rewrite H. apply rstrip_idem.
Qed.

Lemma apply_error_text_stripped cp :
  apply_error_text cp <> [] /\ strip (apply_error_text cp) = apply_error_text cp.
Proof.
  unfold apply_error_text.
  destruct (strip (cp_stderr cp)) as [|c err] eqn:Ee.
  - destruct (strip (cp_stdout cp)) as [|c out] eqn:Eo.
    + split; [discriminate | reflexivity].
    + split; [discriminate|]. rewrite <- Eo. apply strip_idem.
  - split; [discriminate|]. rewrite <- Ee. apply strip_idem.
Qed.

(** *** Outcomes, logs and the delivery of the report *)

Lemma run_tests_passed env self dir w out w1 :
  _run_tests env self dir w = (Ok out, w1) ->
  passed out = (returncode out =? 0).
Proof.
  unfold _run_tests. intros H. apply bind_Ok_inv in H as (cp & w2 & _ & H).
  injection H as <- _. reflexivity.
Qed.

Lemma prepare_world env self pd w src b d w3 :
  prepare env self pd w = (Ok (src, b, d), w3) ->
  d ∈ dirs (fs w3)
  /\ made_by_mkdtemp env d
  /\ log w3 = log w ++ [EvSpawn (test_command self) src;
                        EvMkdtemp (path_name env src ++ lit "_patched_");
                        EvRmtree d; EvCopytree src d].
Proof.
  unfold prepare. intros H.
  apply bind_Ok_inv in H as (found & w0 & Hd & H).
  unfold is_dir in Hd. injection Hd as <- <-.
  case_bool_decide as Hin; cbn [negb] in H; [| discriminate].
  apply bind_Ok_inv in H as (b' & w1 & Hb & H).
  apply bind_Ok_inv in H as (d' & w2 & Hm & H).
  apply bind_Ok_inv in H as ([] & w2' & Hr & H).
  apply bind_Ok_inv in H as ([] & w2'' & Hc & H).
  injection H as <- <- <- <-.
  apply (run_tests_log env) in Hb.
  unfold mkdtemp in Hm. unfold rmtree in Hr. unfold copytree in Hc.
  destruct (os_mkdtemp env _ _) as [d0|] eqn:Em; [|discriminate].
  injection Hm as <- <-. injection Hr as <-.
  case_bool_decide as Hex; [discriminate|].
  destruct (os_copytree env _ _ _) as [|[] e]; try discriminate.
  injection Hc as <-. cbn. split; [|split].
  - apply elem_of_union_l, elem_of_singleton. reflexivity.
  - eexists _, _. exact Em.
  - rewrite Hb. now rewrite <- !app_assoc.
Qed.

Lemma removals_app l1 l2 : removals (l1 ++ l2) = removals l1 ++ removals l2.
Proof. unfold removals. apply omap_app. Qed.

Lemma patch_window_spawned env self d patch w w1 locals w2 :
  _apply_patch env d patch w = (Ok tt, w1) ->
  patch_window env self d patch w = (Ok locals, w2) ->
  spawned (log w2) = spawned (log w1) ++ [(test_command self, d)].
Proof.
  intros Ha. unfold patch_window. rewrite Ha.
  destruct (_run_tests env self d w1) as [[out|e] w3] eqn:Et;
    intros [= _ <-]; rewrite (run_tests_log env _ _ _ _ _ Et), spawned_app;
    reflexivity.
Qed.

Lemma patch_window_total env self d patch w :
  exists locals w', patch_window env self d patch w = (Ok locals, w').
Proof.
  destruct (patch_window_cases env self d patch w)
    as [(e & w1 & _ & H) | [(w1 & e & w2 & _ & _ & H)
                           | (w1 & out & w2 & _ & _ & H)]]; eauto.
Qed.

Lemma write_report_effect env rp r w w1 :
  write_report env rp r w = (Ok tt, w1) ->
  removals (log w1) = removals (log w)
  /\ (forall p, p ∈ dirs (fs w) -> p ∈ dirs (fs w1))
  /\ (forall p, rp = Some p -> files (fs w1) !! Path env p = Some (json_dumps env r)).
Proof.
  unfold write_report. destruct rp as [p|].
  - intros H. apply bind_Ok_inv in H as ([] & w0 & Hm & Hw).
    unfold mkdir in Hm. unfold write_text in Hw.
    destruct (os_mkdir env _ _); [discriminate|]. injection Hm as <-.
    destruct (os_write env _ _ _); [discriminate|]. injection Hw as <-.
    cbn. split; [|split].
    + rewrite !removals_app. cbn. now rewrite !app_nil_r.
    + intros q Hq. now apply elem_of_union_r.
    + intros q [= <-]. apply lookup_insert_eq.
  - intros [= <-]. repeat split; auto. intros p [=].
Qed.

Lemma run_persists_report :
  forall env self program_dir patch rp keep w r w',
    run env self program_dir patch (Some rp) keep w = (Ok r, w') ->
    files (fs w') !! Path env rp = Some (json_dumps env r)
    /\ last (written (log w')) = Some (Path env rp).
Proof.
  intros env self pd patch rp keep w r w' H.
  apply run_Ok_inv in H as (src & b & d & w3 & locals & w4 & _ & _ & _ & H).
  unfold deliver in H. apply bind_Ok_inv in H as ([] & w5 & Hwr & H).
  assert (Hlast : last (written (log w5)) = Some (Path env rp)).
  { unfold write_report in Hwr. apply bind_Ok_inv in Hwr as ([] & w0 & Hm & Hw).
    unfold mkdir in Hm. unfold write_text in Hw.
    destruct (os_mkdir env _ _); [discriminate|]. injection Hm as <-.
    destruct (os_write env _ _ _); [discriminate|]. injection Hw as <-.
    cbn. unfold written. rewrite !omap_app. cbn. rewrite app_nil_r.
    apply last_snoc. }
  destruct (write_report_effect env (Some rp) r w4 w5 Hwr) as (_ & _ & Hf).
  specialize (Hf rp eq_refl).
  destruct keep; cbn [negb] in H; unfold bind, ret, rmtree in H;
    injection H as <-; cbn; auto.
  split; [exact Hf|]. unfold written in *. rewrite omap_app. cbn.
  now rewrite app_nil_r.
Qed.

Lemma init_command_nonempty tc : test_command (__init__ tc) <> [].
Proof. destruct tc as [[|a l]|]; discriminate. Qed.

Lemma prepare_starts_with_baseline env self pd w r w3 :
  resolve env (Path env pd) ∈ dirs (fs w) ->
  prepare env self pd w = (r, w3) ->
  exists l, log w3
            = log w ++ EvSpawn (test_command self) (resolve env (Path env pd)) :: l.
Proof.
  intros Hd. unfold prepare, bind at 1, is_dir.
  rewrite bool_decide_eq_true_2 by assumption. cbn [negb].
  unfold bind at 1.
  destruct (_run_tests env self (resolve env (Path env pd)) w) as [[b|e] w1] eqn:Et;
    pose proof (run_tests_log env _ _ _ _ _ Et) as Hl1.
  - unfold _run_tests in Et. unfold_calls.
    crunch; intros [= <- <-]; cbn [log fs emit set_fs]; rewrite Hl1;
      eexists; rewrite <- ?app_assoc; cbn [app]; reflexivity.
  - intros [= <- <-]. exists []. exact Hl1.
Qed.

Lemma deliver_log_extends env rp keep d r w :
  exists l, log (snd (deliver env rp keep d r w)) = log w ++ l.
Proof.
  unfold deliver, write_report. unfold_calls.
  destruct rp, keep; crunch; cbn [log fs emit set_fs];
    eexists; rewrite <- ?app_assoc; try reflexivity;
    try (now rewrite app_nil_r).
Qed.

(** *** Confinement: what a computation adds to the log *)

Section Confinement.

Context {ok : event -> Prop}.

Lemma confined_ret {A} (post : A -> Prop) a :
  post a -> confined ok post (ret a).
Proof.
  intros Ha w r w' [= <- <-]. split.
  - exists []. split; [now rewrite app_nil_r | constructor].
  - now intros a' [= <-].
Qed.

Lemma confined_raise {A} (post : A -> Prop) e :
  confined ok post (raise e).
Proof.
  intros w r w' [= <- <-]. split.
  - exists []. split; [now rewrite app_nil_r | constructor].
  - intros a' [=].
Qed.

Lemma confined_bind {A B} (mid : A -> Prop) (post : B -> Prop)
    (m : M A) (k : A -> M B) :
  confined ok mid m ->
  (forall a, mid a -> confined ok post (k a)) ->
  confined ok post (bind m k).
Proof.
  intros Hm Hk w r w'. unfold bind.
  destruct (m w) as [[a|e] w1] eqn:E.
  - destruct (Hm w _ _ E) as [(l1 & Hl1 & Hok1) Ha].
    intros H. destruct (Hk a (Ha a eq_refl) w1 r w' H) as [(l2 & Hl2 & Hok2) Hb].
    split; [|exact Hb].
    exists (l1 ++ l2). split.
    + now rewrite Hl2, Hl1, app_assoc.
    + now apply Forall_app.
  - intros [= <- <-]. destruct (Hm w _ _ E) as [Hl _].
    split; [exact Hl | intros a' [=]].
Qed.

Lemma confined_weaken {A} (post post' : A -> Prop) (m : M A) :
  confined ok post m -> (forall a, post a -> post' a) -> confined ok post' m.
Proof.
  intros Hm Himp w r w' H. destruct (Hm w r w' H) as [Hl Ha].
  split; [exact Hl | intros a Hr; apply Himp, Ha, Hr].
Qed.

(** One call: the event it logs, and what it returns. *)
Lemma confined_call {A} (post : A -> Prop) (m : M A) (e : event) :
  ok e ->
  (forall w r w', m w = (r, w') ->
     log w' = log w ++ [e] /\ forall a, r = Ok a -> post a) ->
  confined ok post m.
Proof.
  intros He Hm w r w' H. destruct (Hm w r w' H) as [Hl Ha].
  split; [|exact Ha]. exists [e]. split; [exact Hl | repeat constructor; exact He].
Qed.

Lemma confined_try_finally {A} (post : A -> Prop) (body : M A) (fin : M unit) :
  confined ok post body ->
  confined ok (fun _ => True) fin ->
  confined ok post (try_finally body fin).
Proof.
  intros Hb Hf w r w'. unfold try_finally.
  destruct (body w) as [rb w1] eqn:Eb.
  destruct (fin w1) as [[u|e] w2] eqn:Ef; intros [= <- <-].
  - destruct (Hb _ _ _ Eb) as [(l1 & Hl1 & Hok1) Ha].
    destruct (Hf _ _ _ Ef) as [(l2 & Hl2 & Hok2) _].
    split; [|exact Ha]. exists (l1 ++ l2). split.
    + now rewrite Hl2, Hl1, app_assoc.
    + now apply Forall_app.
  - destruct (Hb _ _ _ Eb) as [(l1 & Hl1 & Hok1) Ha].
    destruct (Hf _ _ _ Ef) as [(l2 & Hl2 & Hok2) _].
    split; [|intros a [=]]. exists (l1 ++ l2). split.
    + now rewrite Hl2, Hl1, app_assoc.
    + now apply Forall_app.
Qed.

End Confinement.

Section Calls.

Variable env : Env.
Context {ok : event -> Prop}.

Lemma confined_is_dir p : confined ok (fun _ : bool => True) (is_dir p).
Proof.
  intros w r w' [= <- <-]. split; [|trivial].
  exists []. split; [now rewrite app_nil_r | constructor].
Qed.

Lemma confined_is_file p : confined ok (fun _ : bool => True) (is_file p).
Proof.
  intros w r w' [= <- <-]. split; [|trivial].
  exists []. split; [now rewrite app_nil_r | constructor].
Qed.

Lemma confined_subprocess_run args cwd :
  ok (EvSpawn args cwd) ->
  confined ok (fun _ => True) (subprocess_run env args cwd).
Proof.
  intros He. apply (confined_call _ _ (EvSpawn args cwd) He).
  intros w r w' H. split; [eapply subprocess_run_log, H | trivial].
Qed.

Lemma confined_mkdtemp prefix :
  ok (EvMkdtemp prefix) ->
  confined ok (made_by_mkdtemp env) (mkdtemp env prefix).
Proof.
  intros He. apply (confined_call _ _ (EvMkdtemp prefix) He).
  intros w r w'. unfold mkdtemp.
  destruct (os_mkdtemp env prefix (fs (emit (EvMkdtemp prefix) w))) as [d|e] eqn:E;
    intros [= <- <-]; (split; [reflexivity|]).
  - intros a [= <-]. now exists prefix, (fs (emit (EvMkdtemp prefix) w)).
  - intros a [=].
Qed.

Lemma confined_rmtree p :
  ok (EvRmtree p) -> confined ok (fun _ => True) (rmtree p).
Proof.
  intros He. apply (confined_call _ _ (EvRmtree p) He).
  intros w r w' [= <- <-]. split; [reflexivity | trivial].
Qed.

Lemma confined_copytree src dst :
  ok (EvCopytree src dst) -> confined ok (fun _ => True) (copytree env src dst).
Proof.
  intros He. apply (confined_call _ _ (EvCopytree src dst) He).
  intros w r w'. unfold copytree.
  case_bool_decide; [intros [= <- <-]; split; [reflexivity | trivial]|].
  destruct (os_copytree env src dst _) as [|[] e]; intros [= <- <-];
    split; trivial; reflexivity.
Qed.

Lemma confined_NamedTemporaryFile :
  ok EvTempfile -> confined ok (made_by_tempfile env) (NamedTemporaryFile env).
Proof.
  intros He. apply (confined_call _ _ EvTempfile He).
  intros w r w'. unfold NamedTemporaryFile.
  destruct (os_tempfile env (fs (emit EvTempfile w))) as [t|e] eqn:E;
    intros [= <- <-]; (split; [reflexivity|]).
  - intros a [= <-]. now exists (fs (emit EvTempfile w)).
  - intros a [=].
Qed.

Lemma confined_write_text p text :
  ok (EvWrite p text) -> confined ok (fun _ => True) (write_text env p text).
Proof.
  intros He. apply (confined_call _ _ (EvWrite p text) He).
  intros w r w'. unfold write_text.
  destruct (os_write env p text _); intros [= <- <-]; split; trivial; reflexivity.
Qed.

Lemma confined_close p :
  ok (EvClose p) -> confined ok (fun _ => True) (close env p).
Proof.
  intros He. apply (confined_call _ _ (EvClose p) He).
  intros w r w'. unfold close.
  destruct (os_close env p _); intros [= <- <-]; split; trivial; reflexivity.
Qed.

Lemma confined_unlink p :
  ok (EvUnlink p) -> confined ok (fun _ => True) (unlink p).
Proof.
  intros He. apply (confined_call _ _ (EvUnlink p) He).
  intros w r w' [= <- <-]. split; [reflexivity | trivial].
Qed.

Lemma confined_mkdir p :
  ok (EvMkdir p) -> confined ok (fun _ => True) (mkdir env p).
Proof.
  intros He. apply (confined_call _ _ (EvMkdir p) He).
  intros w r w'. unfold mkdir.
  destruct (os_mkdir env p _); intros [= <- <-]; split; trivial; reflexivity.
Qed.

End Calls.

Section RunConfined.

Variable env : Env.
Variable self : Runner.
Variables program_dir patch : pystr.
Variable report_path : option pystr.

Let ok := permitted env self program_dir patch report_path.
Let source_dir := resolve env (Path env program_dir).

Lemma confined_run_tests dir :
  dir = source_dir \/ made_by_mkdtemp env dir ->
  confined ok (fun _ => True) (_run_tests env self dir).
Proof.
  intros Hd. unfold _run_tests.
  apply (confined_bind (fun _ => True)).
  - apply confined_subprocess_run. left. auto.
  - intros cp _. now apply confined_ret.
Qed.

Lemma confined_stage_diff :
  confined ok
    (fun staged : pystr * option pystr =>
       (fst staged = resolve env (Path env patch)
        \/ made_by_tempfile env (fst staged))
       /\ forall t, snd staged = Some t -> made_by_tempfile env t)
    (stage_diff env patch).
Proof.
  unfold stage_diff.
  apply (confined_bind (fun _ => True)); [apply confined_is_file|].
  intros [] _.
  - apply confined_ret. cbn. split; [now left | intros t [=]].
  - apply (confined_bind (made_by_tempfile env)).
    + now apply confined_NamedTemporaryFile.
    + intros t Ht. apply (confined_bind (fun _ => True)).
      * apply confined_write_text. left. auto.
      * intros _ _. apply (confined_bind (fun _ => True)).
        -- now apply confined_close.
        -- intros _ _. apply confined_ret. cbn.
           split; [now right | now intros t' [= <-]].
Qed.

Lemma confined_apply_patch d :
  made_by_mkdtemp env d ->
  confined ok (fun _ => True) (_apply_patch env d patch).
Proof.
  intros Hd. unfold _apply_patch.
  eapply confined_bind; [apply confined_stage_diff|].
  intros [diff tp] [Hdiff Htp]. cbn [fst snd] in *.
  apply confined_try_finally.
  - apply (confined_bind (fun _ => True)).
    + apply confined_subprocess_run. right. exists diff. auto.
    + intros cp _. destruct (negb _); [apply confined_raise | now apply confined_ret].
  - destruct tp as [t|]; [|now apply confined_ret].
    apply confined_unlink. now apply Htp.
Qed.

Lemma confined_patch_window d :
  made_by_mkdtemp env d ->
  confined ok (fun _ => True) (patch_window env self d patch).
Proof.
  intros Hd w r w'. unfold patch_window.
  destruct (_apply_patch env d patch w) as [[[]|e] w1] eqn:Ea.
  - destruct (confined_apply_patch d Hd _ _ _ Ea) as [(l1 & Hl1 & Hok1) _].
    destruct (_run_tests env self d w1) as [[out|e] w2] eqn:Et;
      intros [= <- <-];
      destruct (confined_run_tests d (or_intror Hd) _ _ _ Et)
        as [(l2 & Hl2 & Hok2) _];
      (split; [|trivial]); exists (l1 ++ l2);
      (split; [now rewrite Hl2, Hl1, app_assoc | now apply Forall_app]).
  - intros [= <- <-].
    destruct (confined_apply_patch d Hd _ _ _ Ea) as [Hl _]. split; trivial.
Qed.

Lemma confined_run keep :
  confined ok (fun _ => True)
    (run env self program_dir patch report_path keep).
Proof.
  unfold run. fold source_dir.
  apply (confined_bind (fun _ => True)); [apply confined_is_dir|].
  intros found _. destruct (negb found); [apply confined_raise|].
  apply (confined_bind (fun _ => True)); [apply confined_run_tests; now left|].
  intros before _.
  apply (confined_bind (made_by_mkdtemp env)).
  { apply confined_mkdtemp. reflexivity. }
  intros d Hd.
  apply (confined_bind (fun _ => True)); [now apply confined_rmtree|].
  intros _ _.
  apply (confined_bind (fun _ => True)).
  { apply confined_copytree. split; [reflexivity | exact Hd]. }
  intros _ _.
  apply (confined_bind (fun _ => True)); [now apply confined_patch_window|].
  intros [[pa pe] af] _.
  apply (confined_bind (fun _ => True)).
  { destruct report_path as [rp|] eqn:Erp; [|now apply confined_ret].
    apply (confined_bind (fun _ => True)).
    - apply confined_mkdir. exists rp. auto.
    - intros _ _. apply confined_write_text. right. eauto. }
  intros _ _.
  apply (confined_bind (fun _ => True)).
  { destruct (negb keep); [now apply confined_rmtree | now apply confined_ret]. }
  intros _ _. now apply confined_ret.
Qed.

End RunConfined.

Lemma run_log_permitted env self program_dir patch report_path keep w :
  exists l,
    log (snd (run env self program_dir patch report_path keep w)) = log w ++ l
    /\ Forall (permitted env self program_dir patch report_path) l.
Proof.
  destruct (run env self program_dir patch report_path keep w) as [r w'] eqn:E.
  exact (proj1 (confined_run env self program_dir patch report_path keep
                  w r w' E)).
Qed.

Lemma run_starts_with_baseline env self pd patch rp keep w :
  resolve env (Path env pd) ∈ dirs (fs w) ->
  exists rest,
    spawned (log (snd (run env self pd patch rp keep w)))
    = spawned (log w) ++ (test_command self, resolve env (Path env pd)) :: rest.
Proof.
  intros Hd. rewrite run_blocks. unfold bind at 1.
  destruct (prepare env self pd w) as [[[[s b] d]|e] w3] eqn:Ep;
    destruct (prepare_starts_with_baseline env self pd w _ w3 Hd Ep) as (l & Hl).
  - destruct (prepare_world env self pd w s b d w3 Ep) as (_ & Hmade & _).
    destruct (patch_window env self d patch w3) as [rw w4] eqn:Ew.
    destruct (confined_patch_window env self pd patch rp d Hmade w3 rw w4 Ew)
      as [(l2 & Hl2 & _) _].
    unfold bind. rewrite Ew.
    destruct rw as [locals|e].
    + destruct (deliver_log_extends env rp keep d
                  (build_report env s b d keep locals) w4) as (l3 & Hl3).
      rewrite Hl3, Hl2, Hl, !spawned_app. cbn [spawned omap app].
      rewrite <- !app_assoc. cbn. eauto.
    + cbn [snd]. rewrite Hl2, Hl, !spawned_app. cbn.
      rewrite <- !app_assoc. cbn. eauto.
  - cbn [snd]. rewrite Hl, spawned_app. cbn. eauto.
Qed.


(** ** The course of an evaluation *)



(** X2.  When lines 24 to 32 succeed, the source is the resolved program
    directory and was a directory, the workspace exists, and exactly four
    calls were made, in this order: the test command in the source
    directory, [mkdtemp] with the prefix made of the directory name and
    ["_patched_"], [rmtree] of the new directory, [copytree] from the source
    into it. *)
Theorem prepared_workspace_exists :
  forall env self program_dir w src b d w3,
    prepare env self program_dir w = (Ok (src, b, d), w3) ->
    src = resolve env (Path env program_dir)
    /\ src ∈ dirs (fs w)
    /\ d ∈ dirs (fs w3)
    /\ log w3 = log w ++ [EvSpawn (test_command self) src;
                          EvMkdtemp (path_name env src ++ lit "_patched_");
                          EvRmtree d; EvCopytree src d].
Proof.
  intros env self pd w src b d w3 H.
  destruct (prepare_Ok_inv env self pd w src b d w3 H) as (Hs & Hin & _).
  destruct (prepare_world env self pd w src b d w3 H) as (Hd & _ & Hl).
  auto.
Qed.

Lemma prepared_workspace_exists_witness :
  source = resolve (env_of repairing) (Path (env_of repairing) source)
  /\ source ∈ dirs (fs world0)
  /\ workspace ∈ dirs (fs (prepared repairing))
  /\ log (prepared repairing)
     = log world0 ++ [EvSpawn (test_command runner) source;
                      EvMkdtemp (path_name (env_of repairing) source
                                 ++ lit "_patched_");
                      EvRmtree workspace; EvCopytree source workspace].
Proof.
  apply (prepared_workspace_exists (env_of repairing) runner source world0
           source failing workspace (prepared repairing)).
  vm_compute. reflexivity.
Defined.

(** X3.  When the patch applies and the test command starts in the
    workspace, the report carries both outcomes, [patch_applied] true and no
    [patch_error]; its status is never ["patch_failed"], it is ["repaired"]
    exactly when the baseline exit status is not 0 and the second one is 0,
    ["regressed"] exactly when the baseline exit status is 0 and the second
    one is not, and ["not_repaired"] exactly when both are 0 or neither
    is. *)
Theorem verdict_by_exit_codes :
  forall env self program_dir patch report_path keep w src b d w3 w4 out w5,
    prepare env self program_dir w = (Ok (src, b, d), w3) ->
    _apply_patch env d patch w3 = (Ok tt, w4) ->
    _run_tests env self d w4 = (Ok out, w5) ->
    exists r,
      delivered env report_path r w5
        (fst (run env self program_dir patch report_path keep w))
      /\ before r = b /\ after r = Some out
      /\ patch_applied r = true /\ patch_error r = None
      /\ status r <> PATCH_FAILED
      /\ (status r = REPAIRED <-> returncode b <> 0 /\ returncode out = 0)
      /\ (status r = REGRESSED <-> returncode b = 0 /\ returncode out <> 0)
      /\ (status r = NOT_REPAIRED <-> (returncode b = 0 <-> returncode out = 0)).
Proof.
  intros env self pd patch rp keep w src b d w3 w4 out w5 Hp Ha Ht.
  pose proof (window_rerun_returns env self d patch w3 w4 out w5 Ha Ht) as Hw.
  exists (build_report env src b d keep (true, None, Some out)).
  rewrite (run_from_window env self pd patch rp keep w src b d w3 _ w5 Hp Hw).
  split; [apply deliver_delivered|].
  cbn [build_report before after patch_applied patch_error status].
  destruct (prepare_Ok_inv env self pd w src b d w3 Hp) as (_ & _ & w1 & Hb & _).
  apply run_tests_passed in Hb. apply run_tests_passed in Ht.
  repeat (split; [reflexivity|]).
  split; [apply status_present_not_failed|].
  unfold _status; cbn [negb]. rewrite Hb, Ht.
  destruct (Z.eqb_spec (returncode b) 0) as [Eb|Eb],
           (Z.eqb_spec (returncode out) 0) as [Eo|Eo]; cbn [negb andb];
    repeat split; try discriminate; try tauto; intros; try reflexivity;
    try (exfalso; tauto).
Qed.

Lemma verdict_by_exit_codes_witness :
  exists r,
    delivered (env_of Cases.breaking) None r
      (snd (patch_window (env_of Cases.breaking) runner workspace inline_patch
              (prepared Cases.breaking)))
      (fst (evaluate Cases.breaking))
    /\ before r = passing /\ after r = Some failing
    /\ patch_applied r = true /\ patch_error r = None
    /\ status r <> PATCH_FAILED
    /\ (status r = REPAIRED
        <-> returncode passing <> 0 /\ returncode failing = 0)
    /\ (status r = REGRESSED
        <-> returncode passing = 0 /\ returncode failing <> 0)
    /\ (status r = NOT_REPAIRED
        <-> (returncode passing = 0 <-> returncode failing = 0)).
Proof.
  apply (verdict_by_exit_codes (env_of Cases.breaking) runner source
           inline_patch None false world0 source passing workspace
           (prepared Cases.breaking)
           (snd (_apply_patch (env_of Cases.breaking) workspace inline_patch
                   (prepared Cases.breaking)))
           failing).
  - vm_compute. reflexivity.
  - vm_compute. reflexivity.
  - vm_compute. reflexivity.
Defined.

(** X4.  When [git apply] exits with status 0, the evaluation starts
    exactly three processes, whatever the second test run does and whether
    or not the report can be written: the test command in the source
    directory, [git apply] in the workspace, the test command in the
    workspace. *)
Theorem three_processes_when_patch_applies :
  forall env self program_dir patch report_path keep w
         src b d w3 diff tp w3' cp wg,
    prepare env self program_dir w = (Ok (src, b, d), w3) ->
    stage_diff env patch w3 = (Ok (diff, tp), w3') ->
    subprocess_run env (git_apply diff) d w3' = (Ok cp, wg) ->
    cp_returncode cp = 0 ->
    spawned (log (snd (run env self program_dir patch report_path keep w)))
    = spawned (log w)
      ++ [(test_command self, src); (git_apply diff, d);
          (test_command self, d)].
Proof.
  intros env self pd patch rp keep w src b d w3 diff tp w3' cp wg Hp Hs Hg Hz.
  pose proof (apply_patch_staged env d patch w3 diff tp w3' (Ok cp) wg Hs Hg) as Ha.
  cbn [apply_outcome] in Ha. rewrite (proj2 (Z.eqb_eq _ _) Hz) in Ha.
  set (w4 := match tp with Some t => snd (unlink t wg) | None => wg end) in *.
  destruct (patch_window_total env self d patch w3) as (locals & w5 & Hw).
  rewrite (run_from_window env self pd patch rp keep w src b d w3 _ w5 Hp Hw).
  rewrite deliver_spawned.
  rewrite (patch_window_spawned env self d patch w3 w4 locals w5 Ha Hw).
  assert (Hw4 : spawned (log w4) = spawned (log wg)).
  { subst w4. destruct tp; [|reflexivity].
    rewrite unlink_log, spawned_app. cbn. apply app_nil_r. }
  rewrite Hw4, (subprocess_run_log env _ _ _ _ _ Hg), spawned_app.
  rewrite (stage_diff_spawned env _ _ _ _ Hs).
  destruct (prepare_Ok_inv env self pd w src b d w3 Hp) as (_ & _ & w1 & _ & ->).
  cbn. now rewrite <- !app_assoc.
Qed.

Lemma three_processes_when_patch_applies_witness :
  spawned (log (snd (evaluate_to_file repairing)))
  = spawned (log world0)
    ++ [(test_command runner, source); (git_apply temp_diff, workspace);
        (test_command runner, workspace)].
Proof.
  apply (three_processes_when_patch_applies (env_of repairing) runner source
           inline_patch (Some report_file) false world0 source failing
           workspace (prepared repairing) temp_diff (Some temp_diff)
           (snd (stage_diff (env_of repairing) inline_patch
                   (prepared repairing)))
           {| cp_returncode := 0; cp_stdout := []; cp_stderr := [] |}
           (snd (subprocess_run (env_of repairing) (git_apply temp_diff)
                   workspace
                   (snd (stage_diff (env_of repairing) inline_patch
                           (prepared repairing)))))).
  - vm_compute. reflexivity.
  - vm_compute. reflexivity.
  - vm_compute. reflexivity.
  - reflexivity.
Defined.

(** X5.  Once [git apply] has run, the report built by [run] has
    [patch_applied] true exactly when the exit status of [git apply] is 0,
    whatever it printed; when [patch_applied] is false the [patch_error] is
    the text recorded from its streams. *)
Theorem patch_applied_is_exit_status_zero :
  forall env self program_dir patch report_path keep w
         src b d w3 diff tp w3' cp wg,
    prepare env self program_dir w = (Ok (src, b, d), w3) ->
    stage_diff env patch w3 = (Ok (diff, tp), w3') ->
    subprocess_run env (git_apply diff) d w3' = (Ok cp, wg) ->
    exists r w5,
      delivered env report_path r w5
        (fst (run env self program_dir patch report_path keep w))
      /\ (patch_applied r = true <-> cp_returncode cp = 0)
      /\ (patch_applied r = false ->
          patch_error r = Some (apply_error_text cp)).
Proof.
  intros env self pd patch rp keep w src b d w3 diff tp w3' cp wg Hp Hs Hg.
  pose proof (apply_patch_staged env d patch w3 diff tp w3' (Ok cp) wg Hs Hg) as Ha.
  cbn [apply_outcome] in Ha.
  set (w4 := match tp with Some t => snd (unlink t wg) | None => wg end) in *.
  destruct (Z.eqb_spec (cp_returncode cp) 0) as [Hz|Hnz].
  - destruct (_run_tests env self d w4) as [[out|e] w5] eqn:Et.
    + pose proof (window_rerun_returns env self d patch w3 w4 out w5 Ha Et) as Hw.
      exists (build_report env src b d keep (true, None, Some out)), w5.
      rewrite (run_from_window env self pd patch rp keep w src b d w3 _ w5 Hp Hw).
      split; [apply deliver_delivered|]. cbn. split; [tauto | discriminate].
    + pose proof (window_rerun_raises env self d patch w3 w4 e w5 Ha Et) as Hw.
      exists (build_report env src b d keep (true, Some (exn_str e), None)), w5.
      rewrite (run_from_window env self pd patch rp keep w src b d w3 _ w5 Hp Hw).
      split; [apply deliver_delivered|]. cbn. split; [tauto | discriminate].
  - pose proof (window_apply_raises env self d patch w3 _ w4 Ha) as Hw.
    exists (build_report env src b d keep
              (false, Some (apply_error_text cp), None)), w4.
    rewrite (run_from_window env self pd patch rp keep w src b d w3 _ w4 Hp Hw).
    split; [apply deliver_delivered|]. cbn.
    split; [split; [discriminate | contradiction] | reflexivity].
Qed.

Lemma patch_applied_is_exit_status_zero_witness :
  exists r w5,
    delivered (env_of Cases.applying_with_warning) None r w5
      (fst (evaluate Cases.applying_with_warning))
    /\ (patch_applied r = true <-> 0 = 0)
    /\ (patch_applied r = false ->
        patch_error r
        = Some (apply_error_text
                  {| cp_returncode := 0; cp_stdout := [];
                     cp_stderr :=
                       lit "warning: 1 line adds whitespace errors." |})).
Proof.
  apply (patch_applied_is_exit_status_zero (env_of Cases.applying_with_warning)
           runner source inline_patch None false world0 source failing
           workspace (prepared Cases.applying_with_warning) temp_diff
           (Some temp_diff)
           (snd (stage_diff (env_of Cases.applying_with_warning) inline_patch
                   (prepared Cases.applying_with_warning)))
           {| cp_returncode := 0; cp_stdout := [];
              cp_stderr := lit "warning: 1 line adds whitespace errors." |}
           (snd (subprocess_run (env_of Cases.applying_with_warning)
                   (git_apply temp_diff) workspace
                   (snd (stage_diff (env_of Cases.applying_with_warning)
                           inline_patch
                           (prepared Cases.applying_with_warning)))))).
  - vm_compute. reflexivity.
  - vm_compute. reflexivity.
  - vm_compute. reflexivity.
Defined.

(** ** The report *)

(** X6.  In every report that [run] returns, [program_dir] is the resolved
    program directory and [name] its last component, and in [before] as in
    [after], when present, [passed] is true exactly when [returncode] is
    0. *)
Theorem report_outcomes_consistent :
  forall env self program patch report_path keep w r w',
    run env self program patch report_path keep w = (Ok r, w') ->
    program_dir r = resolve env (Path env program)
    /\ name r = path_name env (program_dir r)
    /\ (passed (before r) = true <-> returncode (before r) = 0)
    /\ (forall out, after r = Some out ->
                    (passed out = true <-> returncode out = 0)).
Proof.
  intros env self pd patch rp keep w r w' H.
  apply run_Ok_inv in H as (src & b & d & w3 & locals & w4 & Hp & Hw & -> & _).
  destruct (prepare_Ok_inv env self pd w src b d w3 Hp) as (-> & _ & w1 & Hb & _).
  apply run_tests_passed in Hb.
  destruct locals as [[pa pe] af].
  cbn [build_report before after program_dir name].
  split; [reflexivity|]. split; [reflexivity|].
  split; [rewrite Hb; apply Z.eqb_eq|].
  intros out ->.
  destruct (patch_window_cases env self d patch w3)
    as [(e & w1' & Ha & Hw') | [(w1' & e & w2 & Ha & Ht & Hw')
                              | (w1' & out' & w2 & Ha & Ht & Hw')]];
    rewrite Hw' in Hw; try discriminate.
  injection Hw as _ _ <- _. apply run_tests_passed in Ht. rewrite Ht. apply Z.eqb_eq.
Qed.

Lemma report_outcomes_consistent_witness :
  program_dir repaired_report
  = resolve (env_of repairing) (Path (env_of repairing) source)
  /\ name repaired_report
     = path_name (env_of repairing) (program_dir repaired_report)
  /\ (passed (before repaired_report) = true
      <-> returncode (before repaired_report) = 0)
  /\ (forall out, after repaired_report = Some out ->
                  (passed out = true <-> returncode out = 0)).
Proof.
  apply (report_outcomes_consistent (env_of repairing) runner source
           inline_patch None false world0 repaired_report
           (snd (evaluate repairing))).
  vm_compute. reflexivity.
Defined.



(** X8.  When a report path is given and [run] returns, the file at that
    path holds the serialisation of the very report that is returned, and
    this was the last write of the evaluation. *)
Theorem persisted_report_is_returned_report :
  forall env self program_dir patch rp keep w r w',
    run env self program_dir patch (Some rp) keep w = (Ok r, w') ->
    files (fs w') !! Path env rp = Some (json_dumps env r)
    /\ last (written (log w')) = Some (Path env rp).
Proof.
  intros env self pd patch rp keep w r w' H.
  exact (run_persists_report env self pd patch rp keep w r w' H).
Qed.

Lemma persisted_report_is_returned_report_witness :
  files (fs (snd (evaluate_to_file repairing)))
    !! Path (env_of repairing) report_file
  = Some (json_dumps (env_of repairing) repaired_report)
  /\ last (written (log (snd (evaluate_to_file repairing))))
     = Some (Path (env_of repairing) report_file).
Proof.
  apply (persisted_report_is_returned_report (env_of repairing) runner source
           inline_patch report_file false world0 repaired_report
           (snd (evaluate_to_file repairing))).
  vm_compute. reflexivity.
Defined.

(** ** The apply step *)

(** X9.  When [git apply] exits with a non-zero status, [_apply_patch]
    raises a [RuntimeError] whose message is never empty and has no
    whitespace at either end (stripping it changes nothing); when both
    streams hold nothing but whitespace the message is
    ["patch apply failed"]. *)
Theorem apply_failure_text_never_empty :
  forall env project_dir patch w diff tp w1 cp wg,
    stage_diff env patch w = (Ok (diff, tp), w1) ->
    subprocess_run env (git_apply diff) project_dir w1 = (Ok cp, wg) ->
    cp_returncode cp <> 0 ->
    exists msg,
      fst (_apply_patch env project_dir patch w) = Raise (RuntimeError msg)
      /\ msg <> []
      /\ strip msg = msg
      /\ (strip (cp_stderr cp) = [] -> strip (cp_stdout cp) = [] ->
          msg = lit "patch apply failed").
Proof.
  intros env d patch w diff tp w1 cp wg Hs Hg Hnz.
  exists (apply_error_text cp).
  rewrite (apply_patch_staged env d patch w diff tp w1 _ wg Hs Hg).
  cbn [fst apply_outcome]. rewrite (proj2 (Z.eqb_neq _ _) Hnz).
  destruct (apply_error_text_stripped cp) as [Hne Hst].
  repeat split; try assumption.
  intros He Ho. unfold apply_error_text. now rewrite He, Ho.
Qed.

Lemma apply_failure_text_never_empty_witness :
  exists msg,
    fst (_apply_patch (env_of Cases.silent_rejection) workspace inline_patch
           world0)
    = Raise (RuntimeError msg)
    /\ msg <> []
    /\ strip msg = msg
    /\ (strip [32%N; 10%N] = [] -> strip [10%N] = [] ->
        msg = lit "patch apply failed").
Proof.
  apply (apply_failure_text_never_empty (env_of Cases.silent_rejection)
           workspace inline_patch world0 temp_diff (Some temp_diff)
           (snd (stage_diff (env_of Cases.silent_rejection) inline_patch
                   world0))
           {| cp_returncode := 128; cp_stdout := [10%N];
              cp_stderr := [32%N; 10%N] |}
           (snd (subprocess_run (env_of Cases.silent_rejection)
                   (git_apply temp_diff) workspace
                   (snd (stage_diff (env_of Cases.silent_rejection)
                           inline_patch world0))))).
  - vm_compute. reflexivity.
  - vm_compute. reflexivity.
  - discriminate.
Defined.

(** X10.  When the patch is inline text and writing it to the new temporary
    file raises, in [temp.write] or in [temp.close], [_apply_patch] raises
    that exception without starting [git] and without removing anything:
    the temporary file is left behind. *)
Theorem temporary_diff_left_when_its_write_fails :
  forall env project_dir patch w t w1 e w2,
    files (fs w) !! Path env patch = None ->
    NamedTemporaryFile env w = (Ok t, w1) ->
    (write_text env t patch w1 = (Raise e, w2)
     \/ exists w1', write_text env t patch w1 = (Ok tt, w1')
                    /\ close env t w1' = (Raise e, w2)) ->
    _apply_patch env project_dir patch w = (Raise e, w2)
    /\ is_Some (files (fs w2) !! t)
    /\ spawned (log w2) = spawned (log w)
    /\ removals (log w2) = removals (log w).
Proof.
  intros env d patch w t w1 e w2 Hnone Ht Hfail.
  assert (Hstage : stage_diff env patch w = (Raise e, w2)).
  { unfold stage_diff, bind at 1, is_file.
    rewrite bool_decide_eq_false_2 by (rewrite Hnone; intros [? [=]]).
    rewrite (bind_Ok _ _ _ _ _ Ht).
    destruct Hfail as [Hw | (w1' & Hw & Hc)].
    - now rewrite (bind_Raise _ _ _ _ _ Hw).
    - rewrite (bind_Ok _ _ _ _ _ Hw). now rewrite (bind_Raise _ _ _ _ _ Hc). }
  split; [now apply apply_patch_stage_raises|].
  unfold NamedTemporaryFile in Ht.
  destruct (os_tempfile env _) as [t0|]; [|discriminate]. injection Ht as <- <-.
  unfold write_text, close in Hfail.
  destruct Hfail as [Hw | (w1' & Hw & Hc)].
  - destruct (os_write env _ _ _); [|discriminate]. injection Hw as _ <-.
    cbn. rewrite lookup_insert_eq. split; [eauto|].
    rewrite !spawned_app, !removals_app. cbn. now rewrite !app_nil_r.
  - destruct (os_write env _ _ _); [discriminate|]. injection Hw as <-.
    destruct (os_close env _ _); [|discriminate]. injection Hc as _ <-.
    cbn. rewrite lookup_insert_eq. split; [eauto|].
    rewrite !spawned_app, !removals_app. cbn. now rewrite !app_nil_r.
Qed.

Lemma temporary_diff_left_when_its_write_fails_witness :
  _apply_patch (Cases.env_temp_unwritable repairing) workspace inline_patch
    world0
  = (Raise disk_full,
     snd (write_text (Cases.env_temp_unwritable repairing) temp_diff
            inline_patch
            (snd (NamedTemporaryFile (Cases.env_temp_unwritable repairing)
                    world0))))
  /\ is_Some
       (files
          (fs (snd (write_text (Cases.env_temp_unwritable repairing) temp_diff
                      inline_patch
                      (snd (NamedTemporaryFile
                              (Cases.env_temp_unwritable repairing) world0)))))
          !! temp_diff)
  /\ spawned
       (log (snd (write_text (Cases.env_temp_unwritable repairing) temp_diff
                    inline_patch
                    (snd (NamedTemporaryFile
                            (Cases.env_temp_unwritable repairing) world0)))))
     = spawned (log world0)
  /\ removals
       (log (snd (write_text (Cases.env_temp_unwritable repairing) temp_diff
                    inline_patch
                    (snd (NamedTemporaryFile
                            (Cases.env_temp_unwritable repairing) world0)))))
     = removals (log world0).
Proof.
  apply (temporary_diff_left_when_its_write_fails
           (Cases.env_temp_unwritable repairing) workspace inline_patch world0
           temp_diff
           (snd (NamedTemporaryFile (Cases.env_temp_unwritable repairing)
                   world0))
           disk_full).
  - vm_compute. reflexivity.
  - vm_compute. reflexivity.
  - left. vm_compute. reflexivity.
Defined.

(** ** The calls an evaluation makes *)



(** X13.  A runner made by [__init__] never starts a process with an empty
    argument list, whatever test command it was given, the empty one
    included. *)
Theorem runner_never_starts_an_empty_command :
  forall env test_command program_dir patch report_path keep w,
    exists l,
      log (snd (run env (__init__ test_command) program_dir patch report_path
                  keep w))
      = log w ++ l
      /\ forall args cwd, (args, cwd) ∈ spawned l -> args <> [].
Proof.
  intros env tc pd patch rp keep w.
  destruct (run_log_permitted env (__init__ tc) pd patch rp keep w)
    as (l & Hl & Hok).
  exists l. split; [exact Hl|].
  intros args cwd Hin. unfold spawned in Hin.
  apply list_elem_of_omap in Hin as (e & He & Hin).
  rewrite Forall_forall in Hok. specialize (Hok e He).
  destruct e; try discriminate. injection Hin as -> ->.
  cbn in Hok. destruct Hok as [[-> _] | (diff & -> & _)].
  - apply init_command_nonempty.
  - discriminate.
Qed.

(** ** The command line *)

(** X14.  Whenever [main] returns, whatever the verdict, its exit status is
    0, the text it printed is the serialisation of the report that [run]
    returned for the words of the test command, and the report file holds
    that same text. *)
Theorem main_exit_status_zero_and_printed_report :
  forall env shlex_split args w code printed w',
    main env shlex_split args w = (Ok (code, printed), w') ->
    code = 0
    /\ files (fs w') !! Path env (arg_report args) = Some printed
    /\ exists words r,
         shlex_split (arg_test_command args) = Ok words
         /\ run env (__init__ (Some words)) (arg_program args) (arg_patch args)
              (Some (arg_report args)) (arg_keep_patched_dir args) w
            = (Ok r, w')
         /\ printed = json_dumps env r.
Proof.
  intros env shlex args w code printed w'. unfold main.
  destruct (shlex (arg_test_command args)) as [words|e] eqn:Es; [|discriminate].
  intros H. apply bind_Ok_inv in H as (r & w1 & Hr & H).
  unfold ret in H. injection H as <- <- <-.
  split; [reflexivity|].
  split; [exact (proj1 (run_persists_report env _ _ _ _ _ _ _ _ Hr))|].
  exists words, r. auto.
Qed.

Lemma main_exit_status_zero_and_printed_report_witness :
  0 = 0
  /\ files
       (fs (snd (main (env_of rejected) Cases.split_blanks
                   (Cases.command_line (lit "./run_tests.sh") false) world0)))
       !! Path (env_of rejected)
            (arg_report (Cases.command_line (lit "./run_tests.sh") false))
     = Some (lit "status: patch_failed")
  /\ exists words r,
       Cases.split_blanks
         (arg_test_command (Cases.command_line (lit "./run_tests.sh") false))
       = Ok words
       /\ run (env_of rejected) (__init__ (Some words))
            (arg_program (Cases.command_line (lit "./run_tests.sh") false))
            (arg_patch (Cases.command_line (lit "./run_tests.sh") false))
            (Some (arg_report
                     (Cases.command_line (lit "./run_tests.sh") false)))
            (arg_keep_patched_dir
               (Cases.command_line (lit "./run_tests.sh") false))
            world0
          = (Ok r,
             snd (main (env_of rejected) Cases.split_blanks
                    (Cases.command_line (lit "./run_tests.sh") false) world0))
       /\ lit "status: patch_failed" = json_dumps (env_of rejected) r.
Proof.
  apply (main_exit_status_zero_and_printed_report (env_of rejected)
           Cases.split_blanks
           (Cases.command_line (lit "./run_tests.sh") false) world0 0
           (lit "status: patch_failed")).
  vm_compute. reflexivity.
Defined.

(** X15.  When [shlex.split] rejects the test command, [main] raises that
    error and does nothing else.  When the test command has no words, the
    runner falls back on [python -m pytest -q]: that is the first process
    started, in the resolved program directory. *)
Theorem main_empty_test_command_means_pytest :
  forall env shlex_split args w,
    (forall e, shlex_split (arg_test_command args) = Raise e ->
               main env shlex_split args w = (Raise e, w))
    /\ (shlex_split (arg_test_command args) = Ok [] ->
        resolve env (Path env (arg_program args)) ∈ dirs (fs w) ->
        exists rest,
          spawned (log (snd (main env shlex_split args w)))
          = spawned (log w)
            ++ ([lit "python"; lit "-m"; lit "pytest"; lit "-q"],
                resolve env (Path env (arg_program args))) :: rest).
Proof.
  intros env shlex args w. split.
  - intros e He. unfold main. now rewrite He.
  - intros He Hd. unfold main. rewrite He.
    destruct (run_starts_with_baseline env (__init__ (Some []))
                (arg_program args) (arg_patch args) (Some (arg_report args))
                (arg_keep_patched_dir args) w Hd) as (rest & Hrest).
    exists rest. etransitivity; [|exact Hrest]. unfold bind.
    now destruct (run env _ _ _ _ _ w) as [[r|e] w1].
Qed.

Lemma main_empty_test_command_means_pytest_witness :
  main (env_of repairing) Cases.split_unbalanced
    (Cases.command_line (lit "sh -c 'make") false) world0
  = (Raise Cases.no_closing_quotation, world0)
  /\ exists rest,
       spawned (log (snd (main (env_of repairing) Cases.split_blanks
                            (Cases.command_line [] false) world0)))
       = spawned (log world0)
         ++ ([lit "python"; lit "-m"; lit "pytest"; lit "-q"], source) :: rest.
Proof.
  split.
  - apply (proj1 (main_empty_test_command_means_pytest (env_of repairing)
                    Cases.split_unbalanced
                    (Cases.command_line (lit "sh -c 'make") false) world0)).
    reflexivity.
  - apply (proj2 (main_empty_test_command_means_pytest (env_of repairing)
                    Cases.split_blanks (Cases.command_line [] false) world0)).
    + reflexivity.
    + vm_compute. reflexivity.
Defined.

(** ** [report.py] *)

(** X16.  [RunReport.to_dict] always raises the [TypeError] of [asdict],
    the class not being a dataclass.  Hence [save_json] never returns and
    never writes the report: its only call is the [mkdir] of the parent
    directory, and it raises either the error of that [mkdir] or, once the
    directory is made, the [TypeError]. *)
Theorem save_json_never_writes :
  forall env dumps self output_path w,
    ReportPy.to_dict self
    = Raise (TypeError
               (lit "asdict() should be called on dataclass instances"))
    /\ exists e w',
        ReportPy.save_json env dumps self output_path w = (Raise e, w')
        /\ files (fs w') = files (fs w)
        /\ log w' = log w ++ [EvMkdir (parent env output_path)]
        /\ (os_mkdir env (parent env output_path) (fs w) = Some e
            \/ (os_mkdir env (parent env output_path) (fs w) = None
                /\ e = TypeError
                         (lit "asdict() should be called on dataclass instances")
                /\ parent env output_path ∈ dirs (fs w'))).
Proof.
  intros env dumps self p w. split; [reflexivity|].
  unfold ReportPy.save_json, bind, mkdir.
  destruct (os_mkdir env (parent env p) (fs (emit (EvMkdir (parent env p)) w)))
    as [e|] eqn:E.
  - exists e, (emit (EvMkdir (parent env p)) w). cbn.
    repeat split; try reflexivity. left. exact E.
  - eexists _, _. cbn. split; [reflexivity|]. cbn.
    repeat split; try reflexivity. right.
    split; [exact E|]. split; [reflexivity|].
    apply elem_of_union_l, elem_of_singleton. reflexivity.
Qed.
